(** * signal_bot: tick store, crossover signal and acquisition protocol

    A shallow embedding of [signal_bot.py].  Python values that travel
    through the program dynamically typed (JSON payloads, prices, epochs,
    symbols) are kept dynamically typed here; Python [float] is IEEE-754
    binary64, taken from the standard library's [SpecFloat]; exceptions are
    an explicit result type; the clock and the websocket are explicit
    state. *)

From Stdlib Require Import ZArith List String Ascii Bool Lia SpecFloat.
Import ListNotations.
Open Scope Z_scope.

(** ** Python floats: IEEE-754 binary64 *)

Module F64.

Definition prec : Z := 53.
Definition emax : Z := 1024.

Definition float := spec_float.

Definition zero : float := S754_zero false.
Definition nan : float := S754_nan.
Definition inf : float := S754_infinity false.

(** [m * 2^e], rounded to nearest even. *)
Definition dbl (m e : Z) : float := binary_normalize prec emax m e false.

Definition add : float -> float -> float := SFadd prec emax.
Definition sub : float -> float -> float := SFsub prec emax.
Definition div : float -> float -> float := SFdiv prec emax.

(** Python's comparison operators on two floats: every comparison with a
    NaN operand is [False]. *)
Definition lt (x y : float) : bool := SFltb x y.
Definition le (x y : float) : bool := SFleb x y.
Definition gt (x y : float) : bool := SFltb y x.
Definition ge (x y : float) : bool := SFleb y x.

Definition is_nan (x : float) : bool :=
  match x with S754_nan => true | _ => false end.

Definition is_finite (x : float) : bool :=
  match x with
  | S754_zero _ | S754_finite _ _ _ => true
  | S754_infinity _ | S754_nan => false
  end.

(** The exact value of a finite float, or [None]: [(n, k)] stands for
    [n / 2^k] with [0 <= k]. *)
Definition as_integer_ratio (x : float) : option (Z * Z) :=
  match x with
  | S754_zero _ => Some (0, 0)
  | S754_finite s m e =>
      if 0 <=? e then Some (cond_Zopp s (Zpos m * 2 ^ e), 0)
      else Some (cond_Zopp s (Zpos m), - e)
  | S754_infinity _ | S754_nan => None
  end.

(** Python compares a float with an int exactly, without converting the
    int: [None] when the float is a NaN. *)
Definition compare_int (x : float) (z : Z) : option comparison :=
  match x with
  | S754_nan => None
  | S754_infinity s => Some (if s then Lt else Gt)
  | _ =>
      match as_integer_ratio x with
      | Some (n, k) => Some (n ?= z * 2 ^ k)
      | None => None
      end
  end.

(** [int / int] true division, correctly rounded (the divisor is
    positive); this is how a [Fraction] becomes a [float]. *)
Definition div_int (n : Z) (d : positive) : float :=
  match n with
  | Z0 => zero
  | Zpos p => div (S754_finite false p 0) (S754_finite false d 0)
  | Zneg p => div (S754_finite true p 0) (S754_finite false d 0)
  end.

End F64.

Definition float : Type := F64.float.

(** ** Exceptions *)

Inductive exn : Type :=
| ValueError
| TypeError
| OverflowError
| AttributeError
| IndexError
| StatisticsError
| JSONDecodeError
| KeyError
| TimeoutError
| ConnectionClosed.

Inductive result (A : Type) : Type :=
| Ok (a : A)
| Raise (e : exn).
Arguments Ok {A} a.
Arguments Raise {A} e.

Definition bind {A B : Type} (r : result A) (k : A -> result B) : result B :=
  match r with
  | Ok a => k a
  | Raise e => Raise e
  end.

Notation "x <- r ;; k" := (bind r (fun x => k))
  (at level 61, r at next level, right associativity).
Notation "' p <- r ;; k" := (bind r (fun p => k))
  (at level 61, p pattern, r at next level, right associativity).

(** [float(int)]: rounds to nearest even, and raises when the int is beyond
    the largest double. *)
Definition float_of_int (z : Z) : result float :=
  match F64.dbl z 0 with
  | S754_infinity _ => Raise OverflowError
  | f => Ok f
  end.

(** ** Strings and the [int()] / [float()] constructors

    Strings are byte strings; the two parsers below follow the grammar
    Python applies to ASCII text (Unicode digits and spaces, and the
    interpreter's configurable cap on the number of digits, are left out). *)

Open Scope string_scope.
Open Scope list_scope.
Open Scope Z_scope.

Definition chars (s : string) : list ascii := list_ascii_of_string s.

Definition is_space (c : ascii) : bool :=
  let n := Z.of_nat (nat_of_ascii c) in
  ((9 <=? n) && (n <=? 13)) || (n =? 32).

Definition is_digit (c : ascii) : bool :=
  let n := Z.of_nat (nat_of_ascii c) in (48 <=? n) && (n <=? 57).

Definition digit_val (c : ascii) : Z := Z.of_nat (nat_of_ascii c) - 48.

Definition lower (c : ascii) : ascii :=
  let n := nat_of_ascii c in
  if ((65 <=? n) && (n <=? 90))%nat then ascii_of_nat (n + 32) else c.

Fixpoint lstrip (l : list ascii) : list ascii :=
  match l with
  | c :: r => if is_space c then lstrip r else l
  | [] => []
  end.

Definition strip (l : list ascii) : list ascii := rev (lstrip (rev (lstrip l))).

(** [digit (["_"] digit)*], continued after [n] digits of value [acc];
    returns the value, the number of digits and the unread rest. *)
Fixpoint digitpart_rest (acc : Z) (n : Z) (l : list ascii) : Z * Z * list ascii :=
  match l with
  | c :: r =>
      if is_digit c then digitpart_rest (10 * acc + digit_val c) (n + 1) r
      else if Ascii.eqb c "_"%char then
        match r with
        | d :: r' =>
            if is_digit d then digitpart_rest (10 * acc + digit_val d) (n + 1) r'
            else (acc, n, l)
        | [] => (acc, n, l)
        end
      else (acc, n, l)
  | [] => (acc, n, [])
  end.

Definition digitpart (l : list ascii) : option (Z * Z * list ascii) :=
  match l with
  | c :: r => if is_digit c then Some (digitpart_rest (digit_val c) 1 r) else None
  | [] => None
  end.

Definition sign_prefix (l : list ascii) : bool * list ascii :=
  match l with
  | c :: r =>
      if Ascii.eqb c "-"%char then (true, r)
      else if Ascii.eqb c "+"%char then (false, r)
      else (false, l)
  | [] => (false, [])
  end.

(** [int(s)], base 10: [None] stands for [ValueError]. *)
Definition int_of_string (s : string) : option Z :=
  let (neg, body) := sign_prefix (strip (chars s)) in
  match digitpart body with
  | Some (v, _, []) => Some (if neg then - v else v)
  | _ => None
  end.

(** [m * 10^e], correctly rounded; overflow gives an infinity and
    underflow a zero, as [float()] does on a decimal literal. *)
Definition decimal (neg : bool) (m e : Z) : float :=
  match m with
  | Zpos p =>
      if 0 <=? e then binary_normalize F64.prec F64.emax (cond_Zopp neg (m * 10 ^ e)) 0 neg
      else F64.div (S754_finite neg p 0) (S754_finite false (Z.to_pos (10 ^ (- e))) 0)
  | _ => S754_zero neg
  end.

Definition exponent_part (l : list ascii) : option (Z * list ascii) :=
  match l with
  | c :: r =>
      if Ascii.eqb (lower c) "e"%char then
        let (neg, r') := sign_prefix r in
        match digitpart r' with
        | Some (v, _, rest) => Some (if neg then - v else v, rest)
        | None => None
        end
      else Some (0, l)
  | [] => Some (0, [])
  end.

Definition fraction_part (l : list ascii) : Z * Z * list ascii * bool :=
  match l with
  | c :: r =>
      if Ascii.eqb c "."%char then
        match digitpart r with
        | Some (v, n, rest) => (v, n, rest, true)
        | None => (0, 0, r, false)
        end
      else (0, 0, l, false)
  | [] => (0, 0, [], false)
  end.

(** [float(s)]: [None] stands for [ValueError]. *)
Definition float_of_string (s : string) : option float :=
  let (neg, body) := sign_prefix (strip (chars s)) in
  let name := string_of_list_ascii (map lower body) in
  if String.eqb name "inf" || String.eqb name "infinity" then Some (S754_infinity neg)
  else if String.eqb name "nan" then Some S754_nan
  else
    let '(iv, has_int, after_int) :=
      match digitpart body with
      | Some (v, _, rest) => (v, true, rest)
      | None => (0, false, body)
      end in
    let '(fv, fn, after_frac, has_frac) := fraction_part after_int in
    if has_int || has_frac then
      match exponent_part after_frac with
      | Some (ev, []) => Some (decimal neg (iv * 10 ^ fn + fv) (ev - fn))
      | _ => None
      end
    else None.

(** ** Python values

    What [json.loads] can produce, which is also everything the program
    passes around untyped: symbols, prices and epochs. *)

#[local] Set Warnings "-register-all".

Inductive pyval : Type :=
| PNone
| PBool (b : bool)
| PInt (z : Z)
| PFloat (f : float)
| PStr (s : string)
| PList (l : list pyval)
| PDict (d : list (string * pyval)).

(** Truth value testing, as [or], [and] and [if] apply it. *)
Definition truthy (v : pyval) : bool :=
  match v with
  | PNone => false
  | PBool b => b
  | PInt z => negb (z =? 0)
  | PFloat (S754_zero _) => false
  | PFloat _ => true
  | PStr s => negb (String.eqb s "")
  | PList l => match l with [] => false | _ => true end
  | PDict d => match d with [] => false | _ => true end
  end.

Definition is_none (v : pyval) : bool :=
  match v with PNone => true | _ => false end.

(** [float(v)] *)
Definition py_float (v : pyval) : result float :=
  match v with
  | PFloat f => Ok f
  | PInt z => float_of_int z
  | PBool b => float_of_int (if b then 1 else 0)
  | PStr s =>
      match float_of_string s with
      | Some f => Ok f
      | None => Raise ValueError
      end
  | PNone | PList _ | PDict _ => Raise TypeError
  end.

Fixpoint dict_lookup (k : string) (d : list (string * pyval)) : option pyval :=
  match d with
  | [] => None
  | (k', v) :: r => if String.eqb k k' then Some v else dict_lookup k r
  end.

(** [v.get(k, default)]: only a dict has the method. *)
Definition py_get (v : pyval) (k : string) (default : pyval) : result pyval :=
  match v with
  | PDict d =>
      Ok match dict_lookup k d with
         | Some x => x
         | None => default
         end
  | _ => Raise AttributeError
  end.

Fixpoint has_prefix (p l : list ascii) : bool :=
  match p, l with
  | [], _ => true
  | _ :: _, [] => false
  | a :: p', b :: l' => Ascii.eqb a b && has_prefix p' l'
  end.

Fixpoint has_infix (p l : list ascii) : bool :=
  has_prefix p l ||
  match l with
  | [] => false
  | _ :: l' => has_infix p l'
  end.

Definition is_str (k : string) (v : pyval) : bool :=
  match v with PStr s => String.eqb s k | _ => false end.

(** [k in v] for a string [k]: key of a dict, element of a list,
    substring of a string; anything else is not iterable. *)
Definition py_in (k : string) (v : pyval) : result bool :=
  match v with
  | PDict d => Ok match dict_lookup k d with Some _ => true | None => false end
  | PList l => Ok (existsb (is_str k) l)
  | PStr s => Ok (has_infix (chars k) (chars s))
  | PNone | PBool _ | PInt _ | PFloat _ => Raise TypeError
  end.

(** [v[k]] for a string [k] that passed [k in v]: lists and strings take
    integer indices only. *)
Definition py_subscript (v : pyval) (k : string) : result pyval :=
  match v with
  | PDict d =>
      match dict_lookup k d with
      | Some x => Ok x
      | None => Raise KeyError
      end
  | _ => Raise TypeError
  end.

(** [t >= cutoff] between a stored timestamp and a float. *)
Definition py_ge_float (t : pyval) (cutoff : float) : result bool :=
  let ge_int z :=
    match F64.compare_int cutoff z with
    | Some (Lt | Eq) => true
    | _ => false
    end in
  match t with
  | PFloat f => Ok (F64.ge f cutoff)
  | PInt z => Ok (ge_int z)
  | PBool b => Ok (ge_int (if b then 1 else 0))
  | PNone | PStr _ | PList _ | PDict _ => Raise TypeError
  end.

(** ** Configuration *)

Definition DERIV_TOKEN : option string := None.

Definition SYMBOL_MAP : list (string * string) :=
  [("EURUSD_OTC", "frxEURUSD"); ("GBPUSD_OTC", "frxGBPUSD"); ("AUDUSD_OTC", "frxAUDUSD")].

Definition MAX_POINTS : Z := 500.

(** ** Utilities *)

Definition endswith (s : string) (c : ascii) : bool :=
  match rev (chars s) with
  | x :: _ => Ascii.eqb x c
  | [] => false
  end.

(** [s[:-1]] *)
Definition drop_last (s : string) : string :=
  string_of_list_ascii (removelast (chars s)).

Definition py_int (s : string) : result Z :=
  match int_of_string s with
  | Some z => Ok z
  | None => Raise ValueError
  end.

Definition parse_duration (s : string) : result Z :=
  if endswith s "m" then n <- py_int (drop_last s) ;; Ok (n * 60)
  else if endswith s "s" then py_int (drop_last s)
  else if endswith s "h" then n <- py_int (drop_last s) ;; Ok (n * 3600)
  else Raise ValueError.

(** ** Market data manager *)

(** Dictionary keys.  Python hashes [True], [1] and [1.0] to the same key,
    and a NaN only ever equals itself as an object: a NaN key gets the
    identity [id] of the object it came from. *)
Inductive key : Type :=
| KNone
| KInt (z : Z)
| KFloat (f : float)
| KStr (s : string)
| KNaN (id : nat).

Definition sf_eqb (x y : float) : bool :=
  match x, y with
  | S754_zero a, S754_zero b => Bool.eqb a b
  | S754_infinity a, S754_infinity b => Bool.eqb a b
  | S754_nan, S754_nan => true
  | S754_finite a m e, S754_finite b n f => Bool.eqb a b && Pos.eqb m n && (e =? f)
  | _, _ => false
  end.

Definition key_eqb (a b : key) : bool :=
  match a, b with
  | KNone, KNone => true
  | KInt x, KInt y => x =? y
  | KFloat x, KFloat y => sf_eqb x y
  | KStr x, KStr y => String.eqb x y
  | KNaN x, KNaN y => Nat.eqb x y
  | _, _ => false
  end.

(** The key of a value used as a dictionary subscript; lists and dicts are
    unhashable.  [fresh] names the object when the value is a NaN. *)
Definition hash_key (fresh : nat) (v : pyval) : result key :=
  match v with
  | PNone => Ok KNone
  | PBool b => Ok (KInt (if b then 1 else 0))
  | PInt z => Ok (KInt z)
  | PStr s => Ok (KStr s)
  | PFloat f =>
      match F64.as_integer_ratio f with
      | Some (n, k) => Ok (if n mod 2 ^ k =? 0 then KInt (n / 2 ^ k) else KFloat f)
      | None => Ok (if F64.is_nan f then KNaN fresh else KFloat f)
      end
  | PList _ | PDict _ => Raise TypeError
  end.

(** A tick as the deque holds it: [(timestamp, price)]. *)
Definition tick : Type := pyval * float.

(** [deque(maxlen=n).append(x)], oldest entry first: append on the right,
    then drop the leftmost entry when the bound is exceeded. *)
Definition deque_append {A : Type} (maxlen : Z) (d : list A) (x : A) : list A :=
  let d' := d ++ [x] in
  if maxlen <? Z.of_nat (List.length d') then tl d' else d'.

Record MarketData : Type := { ticks : list (key * list tick) }.

Definition empty_market : MarketData := {| ticks := [] |}.

Fixpoint dict_find {V : Type} (k : key) (d : list (key * V)) : option V :=
  match d with
  | [] => None
  | (k', v) :: r => if key_eqb k k' then Some v else dict_find k r
  end.

Fixpoint dict_set {V : Type} (k : key) (v : V) (d : list (key * V)) : list (key * V) :=
  match d with
  | [] => [(k, v)]
  | (k', v') :: r => if key_eqb k k' then (k', v) :: r else (k', v') :: dict_set k v r
  end.

(** The deque of a symbol; empty when the symbol was never seen. *)
Definition history (m : MarketData) (k : key) : list tick :=
  match dict_find k (ticks m) with
  | Some d => d
  | None => []
  end.

Definition ensure_symbol (m : MarketData) (k : key) : MarketData :=
  match dict_find k (ticks m) with
  | Some _ => m
  | None => {| ticks := dict_set k [] (ticks m) |}
  end.

Definition symbol_key (m : MarketData) (symbol : pyval) : result key :=
  hash_key (List.length (ticks m)) symbol.

(** [add_tick(symbol, price, ts)] at clock reading [now].  The store is
    mutated in place, so what [ensure_symbol] did stays when [float(price)]
    raises afterwards. *)
Definition add_tick (now : float) (m : MarketData) (symbol price ts : pyval)
  : MarketData * result unit :=
  match symbol_key m symbol with
  | Raise e => (m, Raise e)
  | Ok k =>
      let m1 := ensure_symbol m k in
      let ts := if is_none ts then PFloat now else ts in
      match py_float price with
      | Raise e => (m1, Raise e)
      | Ok p =>
          ({| ticks := dict_set k (deque_append MAX_POINTS (history m1 k) (ts, p)) (ticks m1) |},
           Ok tt)
      end
  end.

(** [[p for (t, p) in d if t >= cutoff]] *)
Fixpoint prices_from (cutoff : float) (d : list tick) : result (list float) :=
  match d with
  | [] => Ok []
  | (t, p) :: r =>
      b <- py_ge_float t cutoff ;;
      ps <- prices_from cutoff r ;;
      Ok (if b then p :: ps else ps)
  end.

Definition get_prices_since (now : float) (m : MarketData) (symbol : pyval) (since_seconds : Z)
  : MarketData * result (list float) :=
  match symbol_key m symbol with
  | Raise e => (m, Raise e)
  | Ok k =>
      let m1 := ensure_symbol m k in
      (m1,
       w <- float_of_int since_seconds ;;
       prices_from (F64.sub now w) (history m1 k))
  end.

(** ** Signal strategy *)

(** [l[i:]] *)
Definition slice_from {A : Type} (i : Z) (l : list A) : list A :=
  let n := Z.of_nat (List.length l) in
  let start := if i <? 0 then Z.max (n + i) 0 else Z.min i n in
  skipn (Z.to_nat start) l.

(** [l[i]] *)
Definition py_index {A : Type} (l : list A) (i : Z) : result A :=
  let n := Z.of_nat (List.length l) in
  let j := if i <? 0 then n + i else i in
  if (0 <=? j) && (j <? n) then
    match nth_error l (Z.to_nat j) with
    | Some x => Ok x
    | None => Raise IndexError
    end
  else Raise IndexError.

(** Exact sum of two ratios [n / 2^k]. *)
Definition ratio_add (a b : Z * Z) : Z * Z :=
  let (n1, k1) := a in
  let (n2, k2) := b in
  let k := Z.max k1 k2 in
  (n1 * 2 ^ (k - k1) + n2 * 2 ^ (k - k2), k).

Definition exact_sum (data : list float) : Z * Z :=
  fold_left
    (fun acc x =>
       match F64.as_integer_ratio x with
       | Some r => ratio_add acc r
       | None => acc
       end)
    data (0, 0).

(** [statistics.mean] on floats.  The library adds the data as exact
    fractions and rounds once, when the quotient is converted back to a
    float; as soon as one datum is an infinity or a NaN, the total is the
    float sum of those data alone. *)
Definition mean (data : list float) : result float :=
  match data with
  | [] => Raise StatisticsError
  | _ :: _ =>
      let n := Z.of_nat (List.length data) in
      if forallb F64.is_finite data then
        let (s, k) := exact_sum data in
        Ok (F64.div_int s (Z.to_pos (2 ^ k * n)))
      else
        let total :=
          fold_left F64.add (filter (fun x => negb (F64.is_finite x)) data) F64.zero in
        Ok (F64.div total (F64.dbl n 0))
  end.

Inductive signal : Type := BUY | SELL | HOLD.

(** The explanation string; the f-strings are kept as the values they
    format. *)
Inductive info : Type :=
| not_enough_data
| fast_above (fast_ma slow_ma slope : float)
| fast_below (fast_ma slow_ma slope : float)
| no_cross (fast_ma slow_ma slope : float).

Definition gt_int (x : float) (z : Z) : bool :=
  match F64.compare_int x z with Some Gt => true | _ => false end.

Definition lt_int (x : float) (z : Z) : bool :=
  match F64.compare_int x z with Some Lt => true | _ => false end.

Definition compute_signal (prices : list float) (fast_len slow_len : Z)
  : result (signal * info) :=
  let n := Z.of_nat (List.length prices) in
  if (n <? Z.max fast_len slow_len) || (n <? 3) then Ok (HOLD, not_enough_data)
  else
    fast_ma <- mean (slice_from (- fast_len) prices) ;;
    slow_ma <- (if slow_len <=? n then mean (slice_from (- slow_len) prices)
                else mean prices) ;;
    last <- py_index prices (-1) ;;
    third <- py_index prices (-3) ;;
    let slope := F64.div (F64.sub last third) (F64.dbl 2 0) in
    if F64.gt fast_ma slow_ma && gt_int slope 0 then
      Ok (BUY, fast_above fast_ma slow_ma slope)
    else if F64.lt fast_ma slow_ma && lt_int slope 0 then
      Ok (SELL, fast_below fast_ma slow_ma slope)
    else Ok (HOLD, no_cross fast_ma slow_ma slope).

(** *** The reference algorithm of the design (section 4.2), in its words *)

(** The last [n] elements. *)
Definition lastn {A : Type} (n : nat) (l : list A) : list A :=
  skipn (List.length l - n) l.

(** The [i]-th element counted from the end, the last one being the first. *)
Definition from_end {A : Type} (i : nat) (l : list A) : result A :=
  match nth_error (rev l) (i - 1) with
  | Some x => Ok x
  | None => Raise IndexError
  end.

Definition reference_signal (prices : list float) (fastLen slowLen : Z)
  : result (signal * info) :=
  let len := Z.of_nat (List.length prices) in
  if len <? Z.max (Z.max fastLen slowLen) 3 then Ok (HOLD, not_enough_data)
  else
    fastMA <- mean (lastn (Z.to_nat fastLen) prices) ;;
    slowMA <- (if slowLen <=? len then mean (lastn (Z.to_nat slowLen) prices)
               else mean prices) ;;
    p1 <- from_end 1 prices ;;
    p3 <- from_end 3 prices ;;
    let slope := F64.div (F64.sub p1 p3) (F64.dbl 2 0) in
    if F64.gt fastMA slowMA && F64.gt slope F64.zero then
      Ok (BUY, fast_above fastMA slowMA slope)
    else if F64.lt fastMA slowMA && F64.lt slope F64.zero then
      Ok (SELL, fast_below fastMA slowMA slope)
    else Ok (HOLD, no_cross fastMA slowMA slope).

(** ** Websocket

    A connection is what the provider will deliver on it: frames with their
    arrival times.  A payload is kept as what [json.loads] makes of it,
    [None] when it is not JSON.  Messages are read in order, and a close
    frame is met by [recv] after the messages before it; [send] raises as
    soon as the close frame has arrived.  [DERIV_TOKEN] is [None], so
    neither task performs the authorize exchange. *)

Definition message : Type := option pyval.

Definition json_loads (msg : message) : result pyval :=
  match msg with
  | Some v => Ok v
  | None => Raise JSONDecodeError
  end.

Inductive frame : Type :=
| Frame (arrival : float) (msg : message)
| Close (arrival : float).

(** The clock after waiting for something that arrives at [arrival]. *)
Definition later (clock arrival : float) : float :=
  if F64.lt clock arrival then arrival else clock.

(** [a or b], where evaluating [b] may raise. *)
Definition py_or (a : pyval) (b : result pyval) : result pyval :=
  if truthy a then Ok a else b.

(** *** Background listener *)

Definition resolve_symbol (data t : pyval) : result pyval :=
  s <- py_get t "symbol" PNone ;;
  py_or s (q <- py_get t "quote" PNone ;;
           py_or q (e <- py_get data "echo_req" (PDict []) ;;
                    py_get e "subscribe" PNone)).

Definition resolve_price (t : pyval) : result pyval :=
  q <- py_get t "quote" PNone ;;
  py_or q (p <- py_get t "price" PNone ;;
           py_or p (b <- py_get t "bid" PNone ;;
                    py_or b (py_get t "ask" PNone))).

(** What one pass of the loop body does with a message. *)
Inductive dispatch : Type :=
| Ignore
| Record_tick (symbol price ts : pyval).

Definition listener_dispatch (now : float) (msg : message) : result dispatch :=
  match json_loads msg with
  | Raise _ => Ok Ignore
  | Ok data =>
      has_tick <- py_in "tick" data ;;
      if has_tick then
        t <- py_subscript data "tick" ;;
        symbol <- resolve_symbol data t ;;
        price <- resolve_price t ;;
        if truthy symbol && negb (is_none price) then
          ts <- py_get t "epoch" (PFloat now) ;;
          Ok (Record_tick symbol price ts)
        else Ok Ignore
      else Ok Ignore
  end.

Definition listener_step (now : float) (m : MarketData) (msg : message)
  : MarketData * result unit :=
  match listener_dispatch now msg with
  | Raise e => (m, Raise e)
  | Ok Ignore => (m, Ok tt)
  | Ok (Record_tick symbol price ts) => add_tick now m symbol price ts
  end.

(** A task is either suspended in [recv] or ended by an exception. *)
Inductive task : Type :=
| Waiting
| Stopped (e : exn).

Fixpoint deriv_ws_listener (m : MarketData) (clock : float) (inbox : list frame)
  : MarketData * task :=
  match inbox with
  | [] => (m, Waiting)
  | Close _ :: _ => (m, Stopped ConnectionClosed)
  | Frame arrival msg :: rest =>
      let now := later clock arrival in
      match listener_step now m msg with
      | (m', Ok _) => deriv_ws_listener m' now rest
      | (m', Raise e) => (m', Stopped e)
      end
  end.

(** *** Snapshot fetch *)

Inductive request : Type :=
| Ticks (symbol : pyval)
| Forget (symbol : pyval).

(** What happens on the temporary connection, in order.  [Send r] records
    that [ws.send] is called with [r], whether it delivers the request or
    raises. *)
Inductive io : Type :=
| Send (r : request)
| Wait_for (timeout : Z)
| Release.

Record fetched : Type := {
  f_market : MarketData;
  f_clock : float;
  f_inbox : list frame;
  f_trace : list io;
  f_result : result (list tick)
}.

Definition fetch_step (now : float) (m : MarketData) (symbol : pyval) (msg : message)
  (collected : list tick) : MarketData * result (list tick) :=
  match
    (data <- json_loads msg ;;
     has_tick <- py_in "tick" data ;;
     if has_tick then
       t <- py_subscript data "tick" ;;
       q <- py_get t "quote" PNone ;;
       price <- py_or q (py_get t "price" PNone) ;;
       epoch <- py_get t "epoch" (PFloat now) ;;
       p <- py_float price ;;
       Ok (Some (price, epoch, p))
     else Ok None)
  with
  | Raise e => (m, Raise e)
  | Ok None => (m, Ok collected)
  | Ok (Some (price, epoch, p)) =>
      let collected' := collected ++ [(epoch, p)] in
      match add_tick now m symbol price epoch with
      | (m', Ok _) => (m', Ok collected')
      | (m', Raise e) => (m', Raise e)
      end
  end.

(** The [while] loop: every pass that does not raise takes one frame. *)
Fixpoint collect (symbol : pyval) (duration_seconds : Z) (start : float)
  (inbox : list frame) (clock : float) (m : MarketData) (trace : list io)
  (collected : list tick) {struct inbox} : fetched :=
  if lt_int (F64.sub clock start) duration_seconds then
    let trace := trace ++ [Wait_for duration_seconds] in
    let deadline := F64.add clock (F64.dbl duration_seconds 0) in
    let timed_out := {| f_market := m; f_clock := deadline; f_inbox := inbox;
                        f_trace := trace; f_result := Raise TimeoutError |} in
    match inbox with
    | [] => timed_out
    | Close arrival :: rest =>
        if F64.le arrival deadline then
          {| f_market := m; f_clock := later clock arrival; f_inbox := rest;
             f_trace := trace; f_result := Raise ConnectionClosed |}
        else timed_out
    | Frame arrival msg :: rest =>
        if F64.le arrival deadline then
          let now := later clock arrival in
          match fetch_step now m symbol msg collected with
          | (m', Ok collected') =>
              collect symbol duration_seconds start rest now m' trace collected'
          | (m', Raise e) =>
              {| f_market := m'; f_clock := now; f_inbox := rest;
                 f_trace := trace; f_result := Raise e |}
          end
        else timed_out
    end
  else
    {| f_market := m; f_clock := clock; f_inbox := inbox;
       f_trace := trace; f_result := Ok collected |}.

(** The provider has closed the connection by [clock]: its close frame has
    arrived, whether or not the messages before it have been read. *)
Definition closed_by (clock : float) (inbox : list frame) : bool :=
  existsb (fun fr => match fr with
                     | Close arrival => F64.le arrival clock
                     | Frame _ _ => false
                     end) inbox.

(** [await ws.send(...)]: the call is recorded, and raises once the
    connection is closed. *)
Definition send (clock : float) (inbox : list frame) (trace : list io) (r : request)
  : list io * result unit :=
  (trace ++ [Send r],
   if closed_by clock inbox then Raise ConnectionClosed else Ok tt).

Definition subscribe_and_fetch (m : MarketData) (clock : float) (inbox : list frame)
  (symbol : pyval) (duration_seconds : Z) : fetched :=
  match send clock inbox [] (Ticks symbol) with
  | (trace, Raise e) =>
      {| f_market := m; f_clock := clock; f_inbox := inbox;
         f_trace := trace ++ [Release]; f_result := Raise e |}
  | (trace, Ok _) =>
      let loop := collect symbol duration_seconds clock inbox clock m trace [] in
      match f_result loop with
      | Raise e =>
          {| f_market := f_market loop; f_clock := f_clock loop; f_inbox := f_inbox loop;
             f_trace := f_trace loop ++ [Release]; f_result := Raise e |}
      | Ok collected =>
          match send (f_clock loop) (f_inbox loop) (f_trace loop) (Forget symbol) with
          | (trace', Raise e) =>
              {| f_market := f_market loop; f_clock := f_clock loop;
                 f_inbox := f_inbox loop;
                 f_trace := trace' ++ [Release]; f_result := Raise e |}
          | (trace', Ok _) =>
              {| f_market := f_market loop; f_clock := f_clock loop;
                 f_inbox := f_inbox loop;
                 f_trace := trace' ++ [Release]; f_result := Ok collected |}
          end
      end
  end.

(** ** Console command *)

Fixpoint map_get (k : string) (d : list (string * string)) (default : string) : string :=
  match d with
  | [] => default
  | (k', v) :: r => if String.eqb k k' then v else map_get k r default
  end.

Definition format_symbol (user_sym : string) : string :=
  map_get user_sym SYMBOL_MAP user_sym.

(** The dictionaries [handle_signal_command] returns. *)
Inductive reply : Type :=
| short_reply (sig : signal) (reason : string)
| full_reply (symbol user_symbol timeframe expiration : string)
    (sig : signal) (inf : info) (last_price timestamp : float).

(** The store, the clock, and the provider's side of the next temporary
    connection with what was done on it. *)
Record world : Type := {
  market : MarketData;
  clock : float;
  inbox : list frame;
  trace : list io
}.

Definition with_market (w : world) (m : MarketData) : world :=
  {| market := m; clock := clock w; inbox := inbox w; trace := trace w |}.

Definition after_fetch (w : world) (f : fetched) : world :=
  {| market := f_market f; clock := f_clock f; inbox := f_inbox f;
     trace := trace w ++ f_trace f |}.

(** Everything after the two durations are parsed. *)
Definition signal_path (w : world) (user_sym timeframe expiration : string)
  (tf_seconds : Z) : world * result reply :=
  let deriv_sym := PStr (format_symbol user_sym) in
  let lookback := tf_seconds * 3 in
  let compute (w : world) : world * result reply :=
    match get_prices_since (clock w) (market w) deriv_sym tf_seconds with
    | (m, Raise e) => (with_market w m, Raise e)
    | (m, Ok []) => (with_market w m, Ok (short_reply HOLD "no recent prices"))
    | (m, Ok ((_ :: _) as window_prices)) =>
        (with_market w m,
         '(sig, inf) <- compute_signal window_prices
                          (Z.max 3 (tf_seconds / 6)) (Z.max 8 (tf_seconds / 2)) ;;
         last_price <- py_index window_prices (-1) ;;
         Ok (full_reply (format_symbol user_sym) user_sym timeframe expiration
               sig inf last_price (clock w)))
    end in
  match get_prices_since (clock w) (market w) deriv_sym lookback with
  | (m, Raise e) => (with_market w m, Raise e)
  | (m, Ok prices) =>
      if Z.of_nat (List.length prices) <? Z.max 10 (tf_seconds / 1) then
        let f := subscribe_and_fetch m (clock w) (inbox w) deriv_sym
                   (Z.min 10 (Z.max 5 tf_seconds)) in
        let w1 := after_fetch w f in
        let failed := Ok (short_reply HOLD "failed to retrieve data") in
        match f_result f with
        | Raise _ => (w1, failed)
        | Ok _ =>
            match get_prices_since (clock w1) (market w1) deriv_sym lookback with
            | (m2, Raise _) => (with_market w1 m2, failed)
            | (m2, Ok _) => compute (with_market w1 m2)
            end
        end
      else compute (with_market w m)
  end.

Definition handle_signal_command (w : world) (user_sym timeframe expiration : string)
  : world * result reply :=
  match parse_duration timeframe with
  | Raise e => (w, Raise e)
  | Ok tf_seconds =>
      match parse_duration expiration with
      | Raise e => (w, Raise e)
      | Ok _ => signal_path w user_sym timeframe expiration tf_seconds
      end
  end.

(** ** Console loop

    What [main_console] makes of one line of input, before it prints or
    awaits anything. *)

(** [str.isspace] on an ASCII character: what [strip()] and [split()]
    treat as a separator. *)
Definition is_separator (c : ascii) : bool :=
  let n := Z.of_nat (nat_of_ascii c) in
  ((9 <=? n) && (n <=? 13)) || ((28 <=? n) && (n <=? 32)).

Fixpoint lstrip_str (l : list ascii) : list ascii :=
  match l with
  | c :: r => if is_separator c then lstrip_str r else l
  | [] => []
  end.

(** [s.strip()] *)
Definition str_strip (l : list ascii) : list ascii :=
  rev (lstrip_str (rev (lstrip_str l))).

(** [s.split()], reading on with the word [cur] (last character first)
    under way. *)
Fixpoint words (cur : list ascii) (l : list ascii) : list string :=
  match l with
  | [] =>
      match cur with
      | [] => []
      | _ :: _ => [string_of_list_ascii (rev cur)]
      end
  | c :: r =>
      if is_separator c then
        match cur with
        | [] => words [] r
        | _ :: _ => string_of_list_ascii (rev cur) :: words [] r
        end
      else words (c :: cur) r
  end.

(** [s.lower()] *)
Definition str_lower (s : string) : string :=
  string_of_list_ascii (map lower (chars s)).

Definition startswith (s p : string) : bool := has_prefix (chars p) (chars s).

(** The text after the first ['='], if there is one. *)
Fixpoint after_eq (l : list ascii) : option (list ascii) :=
  match l with
  | [] => None
  | c :: r => if Ascii.eqb c "="%char then Some r else after_eq r
  end.

(** [p.split('=', 1)[1]] *)
Definition split_eq_1 (p : string) : result string :=
  match after_eq (chars p) with
  | Some r => Ok (string_of_list_ascii r)
  | None => Raise IndexError
  end.


(** The branch of the loop body a line leads to. *)
Inductive command : Type :=
| cmd_skip
| cmd_quit
| cmd_help
| cmd_list
| cmd_add (name deriv_symbol : string)
| cmd_usage
| cmd_signal (name timeframe expiration : string)
| cmd_unknown.

(** The [for p in parts[2:]] loop over the options of [signal]. *)
Fixpoint signal_options (timeframe expiration : string) (opts : list string)
  : result (string * string) :=
  match opts with
  | [] => Ok (timeframe, expiration)
  | p :: r =>
      timeframe <- (if startswith p "timeframe=" then split_eq_1 p else Ok timeframe) ;;
      expiration <- (if startswith p "expiration=" then split_eq_1 p else Ok expiration) ;;
      signal_options timeframe expiration r
  end.

Definition read_command (raw : string) : result command :=
  if String.eqb raw "" then Ok cmd_skip
  else
    let parts := words [] (str_strip (chars raw)) in
    match parts with
    | [] => Raise IndexError
    | first :: args =>
        let cmd := str_lower first in
        if String.eqb cmd "quit" || String.eqb cmd "exit" then Ok cmd_quit
        else if String.eqb cmd "help" then Ok cmd_help
        else if String.eqb cmd "list" then Ok cmd_list
        else
          match (if String.eqb cmd "add" then args else []) with
          | name :: deriv_symbol :: _ => Ok (cmd_add name deriv_symbol)
          | _ =>
              if String.eqb cmd "signal" then
                match args with
                | [] => Ok cmd_usage
                | name :: opts =>
                    '(timeframe, expiration) <- signal_options "1m" "2m" opts ;;
                    Ok (cmd_signal name timeframe expiration)
                end
              else Ok cmd_unknown
          end
    end.

(** ** Vocabulary of the properties *)

(** The timestamp [add_tick] stores: the clock when none is given. *)
Definition stamp (now : float) (ts : pyval) : pyval :=
  if is_none ts then PFloat now else ts.

(** One call of [add_tick], with the clock reading at the call. *)
Record call : Type := {
  c_now : float;
  c_symbol : pyval;
  c_price : pyval;
  c_ts : pyval
}.

Definition record (m : MarketData) (c : call) : MarketData :=
  fst (add_tick (c_now c) m (c_symbol c) (c_price c) (c_ts c)).

Definition record_all (calls : list call) (m : MarketData) : MarketData :=
  fold_left record calls m.

(** The ticks a sequence of calls inserts for the instrument [s], in the
    order of the calls: one per call on [s] whose price [float()] takes. *)
Fixpoint inserted (s : string) (calls : list call) : list tick :=
  match calls with
  | [] => []
  | c :: r =>
      match c_symbol c, py_float (c_price c) with
      | PStr s', Ok p =>
          if String.eqb s s' then (stamp (c_now c) (c_ts c), p) :: inserted s r
          else inserted s r
      | _, _ => inserted s r
      end
  end.

Definition is_number (v : pyval) : bool :=
  match v with
  | PFloat _ | PInt _ | PBool _ => true
  | _ => false
  end.

(** The timestamp of a tick is at least [cutoff]. *)
Definition at_least (cutoff : float) (tk : tick) : bool :=
  match py_ge_float (fst tk) cutoff with
  | Ok b => b
  | Raise _ => false
  end.

(** The string ends in one of the three unit letters. *)
Definition has_unit (s : string) : bool :=
  endswith s "m" || endswith s "s" || endswith s "h".

(** The value of a field of a tick object, [None] when it is absent: what
    [t.get(k)] returns. *)
Definition field (d : list (string * pyval)) (k : string) : pyval :=
  match dict_lookup k d with
  | Some x => x
  | None => PNone
  end.

(** The timestamp the listener passes on: the [epoch] field, else the clock. *)
Definition epoch_or (now : float) (d : list (string * pyval)) : pyval :=
  match dict_lookup "epoch" d with
  | Some x => x
  | None => PFloat now
  end.

(** Nothing reaches a receive before [deadline]: the connection is silent,
    or its next frame arrives later. *)
Definition overdue (deadline : float) (inbox : list frame) : bool :=
  match inbox with
  | [] => true
  | Frame arrival _ :: _ | Close arrival :: _ => negb (F64.le arrival deadline)
  end.






(** The decimal digits of a natural number, units first. *)
Fixpoint digits_rev (fuel : nat) (n : Z) : list ascii :=
  match fuel with
  | O => []
  | S f =>
      ascii_of_nat (Z.to_nat (48 + n mod 10))
      :: (if n / 10 =? 0 then [] else digits_rev f (n / 10))
  end.

(** [str(n)]: the decimal numeral of an integer. *)
Definition numeral (n : Z) : string :=
  let digits := string_of_list_ascii (rev (digits_rev (S (Z.to_nat (Z.log2 (Z.abs n)))) (Z.abs n))) in
  if n <? 0 then String "-"%char digits else digits.


(** The reply with another expiration echoed in it. *)
Definition echo_expiration (expiration : string) (r : reply) : reply :=
  match r with
  | short_reply sig reason => short_reply sig reason
  | full_reply symbol user_symbol timeframe _ sig inf last_price timestamp =>
      full_reply symbol user_symbol timeframe expiration sig inf last_price timestamp
  end.

(** The verdict of a result that is one. *)
Definition verdict (r : result (signal * info)) : option signal :=
  match r with
  | Ok (sig, _) => Some sig
  | Raise _ => None
  end.

(** A frame the listener has nothing to record from: text that is not
    JSON, or an object without a [tick] key. *)
Definition carries_no_tick (fr : frame) : bool :=
  match fr with
  | Frame _ None => true
  | Frame _ (Some (PDict d)) =>
      match dict_lookup "tick" d with
      | Some _ => false
      | None => true
      end
  | _ => false
  end.

(** A JSON value that is neither an object, an array nor a string. *)
Definition is_scalar (v : pyval) : bool :=
  match v with
  | PNone | PBool _ | PInt _ | PFloat _ => true
  | PStr _ | PList _ | PDict _ => false
  end.

(** Every character of the line is ASCII: on such a line the blanks of
    [str.isspace] are those of [is_separator]. *)
Definition ascii_only (s : string) : bool :=
  forallb (fun c => Z.of_nat (nat_of_ascii c) <? 128) (chars s).

(** ** Sample data *)

Definition EURUSD : string := "frxEURUSD".

(** Three inserts for one instrument, stamped 1, 2 and 3. *)
Definition three_calls : list call :=
  [ {| c_now := F64.dbl 1 0; c_symbol := PStr EURUSD; c_price := PStr "1.0841"; c_ts := PInt 1 |};
    {| c_now := F64.dbl 2 0; c_symbol := PStr EURUSD; c_price := PFloat (F64.dbl 3 (-1)); c_ts := PNone |};
    {| c_now := F64.dbl 3 0; c_symbol := PStr EURUSD; c_price := PInt 2; c_ts := PFloat (F64.dbl 3 0) |} ].

(** [n] inserts for one instrument: the [i]-th has price [i] and stamp [i]. *)
Definition many_calls (n : nat) : list call :=
  map (fun i => {| c_now := F64.dbl (Z.of_nat i) 0; c_symbol := PStr EURUSD;
                   c_price := PInt (Z.of_nat i); c_ts := PNone |})
      (seq 1 n).

Definition idle_world : world :=
  {| market := empty_market; clock := F64.dbl 1000 0; inbox := []; trace := [] |}.

(** A tick whose four price fields are all zero. *)
Definition all_zero_tick : pyval :=
  PDict [("tick", PDict [("symbol", PStr EURUSD); ("quote", PFloat F64.zero);
                         ("price", PInt 0); ("bid", PInt 0); ("ask", PInt 0)])].

(** A tick quoted at zero, with no other price field. *)
Definition zero_quote_tick : list (string * pyval) :=
  [("tick", PDict [("symbol", PStr EURUSD); ("quote", PFloat F64.zero)])].

(** A well-formed tick message. *)
Definition tick_message (quote : pyval) (epoch : Z) : message :=
  Some (PDict [("tick", PDict [("symbol", PStr EURUSD); ("quote", quote);
                               ("epoch", PInt epoch)])]).

(** A tick object that names its instrument but carries no price. *)
Definition priceless_tick : pyval :=
  PDict [("tick", PDict [("symbol", PStr EURUSD); ("epoch", PInt 1001)])].

(** A payload that is not JSON, followed by a tick. *)
Definition noise_then_tick : list frame :=
  [Frame (F64.dbl 1001 0) None;
   Frame (F64.dbl 1002 0) (tick_message (PFloat (F64.dbl 3 (-1))) 1002)].

(** One tick three seconds into the fetch, then silence. *)
Definition tick_then_silence : list frame :=
  [Frame (F64.dbl 1003 0) (tick_message (PFloat (F64.dbl 3 (-1))) 1003)].

(** Three neighbouring doubles just above 1: [1 + u], [1 + 2u], [1 + 3u]
    with [u = 2^-52]. *)
Definition three_neighbours : list float :=
  [F64.dbl (2 ^ 52 + 1) (-52); F64.dbl (2 ^ 52 + 2) (-52); F64.dbl (2 ^ 52 + 3) (-52)].

(** Ticks one, four and six seconds after the clock reads 1000. *)
Definition ticks_past_budget : list frame :=
  [Frame (F64.dbl 1001 0) (tick_message (PFloat (F64.dbl 3 (-1))) 1001);
   Frame (F64.dbl 1004 0) (tick_message (PInt 2) 1004);
   Frame (F64.dbl 1006 0) (tick_message (PFloat (F64.dbl 5 (-1))) 1006)].

(** A world whose store holds twelve ticks of one instrument, stamped 1
    to 12, the clock reading 12. *)
Definition warm_world : world :=
  {| market := record_all (many_calls 12) empty_market; clock := F64.dbl 12 0;
     inbox := []; trace := [] |}.

(** Three ticks, the last one past a five-second budget, with the
    provider closing the connection as it sends the last one. *)
Definition ticks_then_close : list frame :=
  ticks_past_budget ++ [Close (F64.dbl 1006 0)].

(** * Properties *)

(** ** Slices, indices and comparisons with zero *)

Lemma slice_from_neg {A : Type} (k : Z) (l : list A) :
  0 < k -> slice_from (- k) l = lastn (Z.to_nat k) l.
Proof.
  intros Hk. unfold slice_from, lastn.
  destruct (Z.ltb_spec (- k) 0) as [_ | H]; [| lia].
  f_equal. lia.
Qed.

Lemma py_index_from_end {A : Type} (i : nat) (l : list A) :
  (0 < i <= List.length l)%nat ->
  py_index l (- Z.of_nat i) = from_end i l.
Proof.
  intros Hi. unfold py_index, from_end.
  destruct (Z.ltb_spec (- Z.of_nat i) 0) as [_ | H]; [| lia].
  rewrite nth_error_rev.
  destruct (Nat.ltb_spec (i - 1) (List.length l)) as [_ | H]; [| lia].
  replace (Z.to_nat (Z.of_nat (List.length l) + - Z.of_nat i))
    with (List.length l - S (i - 1))%nat by lia.
  destruct (Z.leb_spec 0 (Z.of_nat (List.length l) + - Z.of_nat i)) as [_ | H]; [| lia].
  destruct (Z.ltb_spec (Z.of_nat (List.length l) + - Z.of_nat i)
              (Z.of_nat (List.length l))) as [_ | H]; [| lia].
  reflexivity.
Qed.

Lemma finite_ratio_sign (s : bool) (m : positive) (e : Z) :
  exists n k, F64.as_integer_ratio (S754_finite s m e) = Some (n, k)
              /\ (if s then n < 0 else 0 < n).
Proof.
  unfold F64.as_integer_ratio.
  destruct (Z.leb_spec 0 e) as [He | He].
  - exists (cond_Zopp s (Z.pos m * 2 ^ e)), 0. split; [reflexivity |].
    assert (0 < Z.pos m * 2 ^ e) by (apply Z.mul_pos_pos; [lia | apply Z.pow_pos_nonneg; lia]).
    destruct s; unfold cond_Zopp; lia.
  - exists (cond_Zopp s (Z.pos m)), (- e). split; [reflexivity |].
    destruct s; unfold cond_Zopp; lia.
Qed.

Lemma compare_int_zero (x : float) : F64.compare_int x 0 = SFcompare x F64.zero.
Proof.
  destruct x as [s | s | | s m e]; try reflexivity.
  unfold F64.compare_int.
  destruct (finite_ratio_sign s m e) as (n & k & -> & Hn).
  rewrite Z.mul_0_l. simpl.
  destruct s; f_equal; [apply Z.compare_lt_iff | apply Z.compare_gt_iff]; lia.
Qed.

Lemma gt_int_zero (x : float) : gt_int x 0 = F64.gt x F64.zero.
Proof.
  unfold gt_int, F64.gt, SFltb. rewrite compare_int_zero.
  destruct x as [s | s | | s m e]; try destruct s; reflexivity.
Qed.

Lemma lt_int_zero (x : float) : lt_int x 0 = F64.lt x F64.zero.
Proof. unfold lt_int, F64.lt, SFltb. now rewrite compare_int_zero. Qed.

(** ** C1 *)

(** C1: [compute_signal] is the reference algorithm of section 4.2.  For
    every price sequence and all window lengths (positive, as lengths are),
    the two return the same verdict and the same numbers: HOLD for want of
    data below [max(fastLen, slowLen, 3)] prices; otherwise the mean of the
    last [fastLen] prices, the mean of the last [slowLen] prices (of all of
    them if there were fewer), half the difference between the last and the
    third-from-last price, and BUY, SELL or HOLD in that order of priority,
    a tie of the two means falling to HOLD. *)
Theorem compute_signal_is_reference (prices : list float) (fast_len slow_len : Z) :
  0 < fast_len -> 0 < slow_len ->
  compute_signal prices fast_len slow_len = reference_signal prices fast_len slow_len.
Proof.
  intros Hf Hs. unfold compute_signal, reference_signal.
  set (n := Z.of_nat (List.length prices)).
  assert (Hguard : ((n <? Z.max fast_len slow_len) || (n <? 3))
                   = (n <? Z.max (Z.max fast_len slow_len) 3)).
  { destruct (Z.ltb_spec n (Z.max fast_len slow_len)),
      (Z.ltb_spec n 3), (Z.ltb_spec n (Z.max (Z.max fast_len slow_len) 3));
      simpl; try reflexivity; lia. }
  rewrite Hguard.
  destruct (Z.ltb_spec n (Z.max (Z.max fast_len slow_len) 3)) as [| Hn]; [reflexivity |].
  rewrite !slice_from_neg by assumption.
  change (-1) with (- Z.of_nat 1). change (-3) with (- Z.of_nat 3).
  rewrite !py_index_from_end by (subst n; lia).
  destruct (mean (lastn (Z.to_nat fast_len) prices)) as [fast_ma |]; [| reflexivity].
  simpl bind.
  destruct (if slow_len <=? n then mean (lastn (Z.to_nat slow_len) prices) else mean prices)
    as [slow_ma |]; [| reflexivity].
  simpl bind.
  destruct (from_end 1 prices) as [p1 |]; [| reflexivity]. simpl bind.
  destruct (from_end 3 prices) as [p3 |]; [| reflexivity]. simpl bind.
  now rewrite gt_int_zero, lt_int_zero.
Qed.

Lemma compute_signal_is_reference_witness :
  0 < 3 /\ 0 < 8 /\
  compute_signal (map (fun z => F64.dbl z 0) [1; 2; 3; 4; 5; 6; 7; 8; 9; 10]) 3 8
  = reference_signal (map (fun z => F64.dbl z 0) [1; 2; 3; 4; 5; 6; 7; 8; 9; 10]) 3 8.
Proof.
  split; [lia |]. split; [lia |].
  apply (compute_signal_is_reference
           (map (fun z => F64.dbl z 0) [1; 2; 3; 4; 5; 6; 7; 8; 9; 10]) 3 8); lia.
Defined.

(** ** The store as a dictionary *)

Lemma sf_eqb_eq (x y : float) : sf_eqb x y = true <-> x = y.
Proof.
  destruct x as [a | a | | a m e], y as [b | b | | b n f]; simpl;
    try (split; [discriminate | congruence]); try tauto.
  - rewrite Bool.eqb_true_iff. split; congruence.
  - rewrite Bool.eqb_true_iff. split; congruence.
  - rewrite !andb_true_iff, Bool.eqb_true_iff, Pos.eqb_eq, Z.eqb_eq.
    split; [intros [[-> ->] ->]; reflexivity | intros H; injection H; auto].
Qed.

Lemma key_eqb_eq (a b : key) : key_eqb a b = true <-> a = b.
Proof.
  destruct a, b; simpl; try (split; [discriminate | congruence]); try tauto.
  - rewrite Z.eqb_eq. split; congruence.
  - rewrite sf_eqb_eq. split; congruence.
  - rewrite String.eqb_eq. split; congruence.
  - rewrite Nat.eqb_eq. split; congruence.
Qed.

Lemma dict_find_set {V : Type} (k k' : key) (v : V) (d : list (key * V)) :
  dict_find k (dict_set k' v d) = if key_eqb k k' then Some v else dict_find k d.
Proof.
  induction d as [| [k0 v0] d IH]; simpl.
  - reflexivity.
  - destruct (key_eqb k' k0) eqn:E0; simpl.
    + apply key_eqb_eq in E0. subst k0. now destruct (key_eqb k k').
    + rewrite IH. destruct (key_eqb k k') eqn:E1; [| reflexivity].
      apply key_eqb_eq in E1. subst k'. now rewrite E0.
Qed.

Lemma history_ensure_symbol (m : MarketData) (k k' : key) :
  history (ensure_symbol m k') k = history m k.
Proof.
  unfold ensure_symbol, history.
  destruct (dict_find k' (ticks m)) eqn:E; [reflexivity |].
  simpl. rewrite dict_find_set.
  destruct (key_eqb k k') eqn:E1; [| reflexivity].
  apply key_eqb_eq in E1. subst k'. now rewrite E.
Qed.

(** What [add_tick] does to each history. *)
Lemma history_add_tick (now : float) (m : MarketData) (symbol price ts : pyval) (k : key) :
  history (fst (add_tick now m symbol price ts)) k =
  match symbol_key m symbol, py_float price with
  | Ok k', Ok p =>
      if key_eqb k k' then deque_append MAX_POINTS (history m k) (stamp now ts, p)
      else history m k
  | _, _ => history m k
  end.
Proof.
  unfold add_tick.
  destruct (symbol_key m symbol) as [k' |]; [| reflexivity].
  destruct (py_float price) as [p |]; simpl.
  - unfold history at 1. simpl. rewrite dict_find_set.
    destruct (key_eqb k k') eqn:E.
    + apply key_eqb_eq in E. subst k'. now rewrite history_ensure_symbol.
    + fold (history (ensure_symbol m k') k). apply history_ensure_symbol.
  - apply history_ensure_symbol.
Qed.

Lemma result_add_tick (now : float) (m : MarketData) (symbol price ts : pyval) :
  snd (add_tick now m symbol price ts) =
  (_ <- symbol_key m symbol ;; _ <- py_float price ;; Ok tt).
Proof.
  unfold add_tick.
  destruct (symbol_key m symbol); [| reflexivity].
  now destruct (py_float price).
Qed.

(** ** The bounded deque *)

Lemma length_deque_append {A : Type} (maxlen : Z) (d : list A) (x : A) :
  0 <= maxlen ->
  Z.of_nat (List.length d) <= maxlen ->
  Z.of_nat (List.length (deque_append maxlen d x)) <= maxlen.
Proof.
  intros H0 H. unfold deque_append.
  destruct (Z.ltb_spec maxlen (Z.of_nat (List.length (d ++ [x])))) as [Hlt | Hge]; [| lia].
  rewrite length_app in Hlt. simpl in Hlt.
  destruct d as [| a d]; simpl in *; [lia |].
  rewrite length_app. simpl. lia.
Qed.

Lemma deque_append_lastn {A : Type} (maxlen : Z) (l : list A) (x : A) :
  0 <= maxlen ->
  deque_append maxlen (lastn (Z.to_nat maxlen) l) x = lastn (Z.to_nat maxlen) (l ++ [x]).
Proof.
  intros H0. unfold deque_append, lastn.
  set (M := Z.to_nat maxlen). set (n := List.length l).
  assert (Hcat : skipn (n - M) l ++ [x] = skipn (n - M) (l ++ [x])).
  { rewrite skipn_app. fold n. now replace (n - M - n)%nat with 0%nat by lia. }
  rewrite Hcat, !length_skipn, !length_app. fold n. simpl List.length.
  destruct (Z.ltb_spec maxlen (Z.of_nat (n + 1 - (n - M)))) as [Hlt | Hge].
  - change (tl (skipn (n - M) (l ++ [x]))) with (skipn 1 (skipn (n - M) (l ++ [x]))).
    rewrite skipn_skipn. f_equal. lia.
  - f_equal. lia.
Qed.

Lemma history_record_str (m : MarketData) (c : call) (s : string) :
  history (record m c) (KStr s) =
  match c_symbol c, py_float (c_price c) with
  | PStr s', Ok p =>
      if String.eqb s s'
      then deque_append MAX_POINTS (history m (KStr s)) (stamp (c_now c) (c_ts c), p)
      else history m (KStr s)
  | _, _ => history m (KStr s)
  end.
Proof.
  unfold record. rewrite history_add_tick. unfold symbol_key, hash_key.
  destruct (c_symbol c) as [| b | z | f | s' | l | d]; try reflexivity;
    try (now destruct (py_float (c_price c))).
  destruct (F64.as_integer_ratio f) as [[n k] |].
  - destruct (n mod 2 ^ k =? 0); now destruct (py_float (c_price c)).
  - destruct (F64.is_nan f); now destruct (py_float (c_price c)).
Qed.

Lemma history_record_bounded (m : MarketData) (c : call) :
  (forall k, Z.of_nat (List.length (history m k)) <= MAX_POINTS) ->
  forall k, Z.of_nat (List.length (history (record m c) k)) <= MAX_POINTS.
Proof.
  intros H k. unfold record. rewrite history_add_tick.
  destruct (symbol_key m (c_symbol c)) as [k' |]; [| apply H].
  destruct (py_float (c_price c)) as [p |]; [| apply H].
  destruct (key_eqb k k'); [| apply H].
  apply length_deque_append; [unfold MAX_POINTS; lia | apply H].
Qed.

Lemma record_all_bounded (calls : list call) (m : MarketData) :
  (forall k, Z.of_nat (List.length (history m k)) <= MAX_POINTS) ->
  forall k, Z.of_nat (List.length (history (record_all calls m) k)) <= MAX_POINTS.
Proof.
  revert m. induction calls as [| c calls IH]; intros m H; simpl.
  - exact H.
  - apply IH. now apply history_record_bounded.
Qed.

Lemma record_all_fifo (s : string) (calls : list call) (m : MarketData) (before : list tick) :
  history m (KStr s) = lastn (Z.to_nat MAX_POINTS) before ->
  history (record_all calls m) (KStr s)
  = lastn (Z.to_nat MAX_POINTS) (before ++ inserted s calls).
Proof.
  revert m before. induction calls as [| c calls IH]; intros m before H; simpl.
  - now rewrite app_nil_r.
  - pose proof (history_record_str m c s) as Hc.
    destruct (c_symbol c) as [| b | z | f | s' | l | d];
      try (apply IH; congruence).
    destruct (py_float (c_price c)) as [p |]; [| apply IH; congruence].
    destruct (String.eqb s s'); [| apply IH; congruence].
    replace (before ++ (stamp (c_now c) (c_ts c), p) :: inserted s calls)
      with ((before ++ [(stamp (c_now c) (c_ts c), p)]) ++ inserted s calls)
      by (now rewrite <- app_assoc).
    apply IH. rewrite Hc, H. apply deque_append_lastn. unfold MAX_POINTS. lia.
Qed.

(** ** Window queries *)

Lemma prices_from_length (cutoff : float) (d : list tick) (ps : list float) :
  prices_from cutoff d = Ok ps -> (List.length ps <= List.length d)%nat.
Proof.
  revert ps. induction d as [| [t p] d IH]; intros ps H; simpl in H.
  - injection H as <-. simpl. lia.
  - destruct (py_ge_float t cutoff) as [b |]; [| discriminate].
    simpl in H. destruct (prices_from cutoff d) as [qs |]; [| discriminate].
    simpl in H. injection H as <-. specialize (IH qs eq_refl).
    destruct b; simpl; lia.
Qed.

Lemma prices_from_filter (cutoff : float) (d : list tick) :
  Forall (fun tk => is_number (fst tk) = true) d ->
  prices_from cutoff d = Ok (map snd (filter (at_least cutoff) d)).
Proof.
  induction 1 as [| [t p] d Ht _ IH]; simpl.
  - reflexivity.
  - rewrite IH. unfold at_least. simpl in *.
    destruct t; try discriminate; simpl;
      match goal with |- context [if ?b then _ else _] => destruct b end; reflexivity.
Qed.

Lemma prices_from_all (cutoff : float) (d : list tick) :
  (forall t p, In (t, p) d -> py_ge_float t cutoff = Ok true) ->
  prices_from cutoff d = Ok (map snd d).
Proof.
  induction d as [| [t p] d IH]; intros H; simpl.
  - reflexivity.
  - rewrite (H t p) by now left. simpl.
    rewrite IH by (intros t' p' Hin; apply (H t' p'); now right).
    reflexivity.
Qed.

Lemma get_prices_since_str (now : float) (m : MarketData) (s : string) (since : Z) :
  get_prices_since now m (PStr s) since =
  (ensure_symbol m (KStr s),
   w <- float_of_int since ;; prices_from (F64.sub now w) (history m (KStr s))).
Proof.
  unfold get_prices_since. simpl. now rewrite history_ensure_symbol.
Qed.

(** ** C2 *)

(** C2: whatever the sequence of [add_tick] calls, no instrument's history
    ever holds more than [MAX_POINTS] = 500 entries, and the history of an
    instrument is the last 500 ticks inserted for it, in insertion order
    (an insert at capacity evicts the oldest); so a later
    [get_prices_since] returns at most 500 prices, and with a window wide
    enough to cover every stored timestamp it returns exactly the prices of
    the 500 most recent inserts, in insertion order. *)
Theorem history_is_last_MAX_POINTS (calls : list call) (s : string) :
  let m := record_all calls empty_market in
  (forall k, Z.of_nat (List.length (history m k)) <= MAX_POINTS) /\
  history m (KStr s) = lastn (Z.to_nat MAX_POINTS) (inserted s calls) /\
  (forall now since prices,
      snd (get_prices_since now m (PStr s) since) = Ok prices ->
      Z.of_nat (List.length prices) <= MAX_POINTS) /\
  (forall now since w,
      float_of_int since = Ok w ->
      (forall t p, In (t, p) (history m (KStr s)) ->
                   py_ge_float t (F64.sub now w) = Ok true) ->
      snd (get_prices_since now m (PStr s) since)
      = Ok (map snd (lastn (Z.to_nat MAX_POINTS) (inserted s calls)))).
Proof.
  intros m.
  assert (Hb : forall k, Z.of_nat (List.length (history m k)) <= MAX_POINTS).
  { apply record_all_bounded. intros k. unfold MAX_POINTS. simpl. lia. }
  assert (Hf : history m (KStr s) = lastn (Z.to_nat MAX_POINTS) (inserted s calls)).
  { apply (record_all_fifo s calls empty_market []). reflexivity. }
  split; [exact Hb |]. split; [exact Hf |]. split.
  - intros now since prices H. rewrite get_prices_since_str in H. simpl in H.
    destruct (float_of_int since) as [w |]; [| discriminate]. simpl in H.
    apply prices_from_length in H. specialize (Hb (KStr s)). lia.
  - intros now since w Hw Hcover. rewrite get_prices_since_str. simpl.
    rewrite Hw. simpl. rewrite prices_from_all by exact Hcover. now rewrite Hf.
Qed.

Lemma history_is_last_MAX_POINTS_witness :
  float_of_int 60 = Ok (F64.dbl 60 0) /\
  (forall t p, In (t, p) (history (record_all three_calls empty_market) (KStr EURUSD)) ->
               py_ge_float t (F64.sub (F64.dbl 10 0) (F64.dbl 60 0)) = Ok true) /\
  snd (get_prices_since (F64.dbl 10 0) (record_all three_calls empty_market) (PStr EURUSD) 60)
  = Ok (map snd (lastn (Z.to_nat MAX_POINTS) (inserted EURUSD three_calls))).
Proof.
  assert (H1 : float_of_int 60 = Ok (F64.dbl 60 0)) by reflexivity.
  assert (H2 : forall t p,
             In (t, p) (history (record_all three_calls empty_market) (KStr EURUSD)) ->
             py_ge_float t (F64.sub (F64.dbl 10 0) (F64.dbl 60 0)) = Ok true).
  { intros t p Hin. vm_compute in Hin.
    destruct Hin as [E | [E | [E | []]]]; injection E as <- _; reflexivity. }
  split; [exact H1 |]. split; [exact H2 |].
  exact (proj2 (proj2 (proj2 (history_is_last_MAX_POINTS three_calls EURUSD)))
           (F64.dbl 10 0) 60 (F64.dbl 60 0) H1 H2).
Defined.

(** After 501 inserts the first is gone: 500 prices come back, the oldest
    of them the second insert and the newest the last. *)
Example eviction_after_501 :
  let r := snd (get_prices_since (F64.dbl 501 0)
                  (record_all (many_calls 501) empty_market) (PStr EURUSD) 1000) in
  r = Ok (map (fun i => F64.dbl (Z.of_nat i) 0) (seq 2 500)).
Proof. vm_compute. reflexivity. Qed.

(** ** C6 *)

(** C6: [get_prices_since] returns exactly the stored prices whose timestamp
    is at least the clock reading minus the window, in insertion order, for
    every instrument and every window (an int that converts to a float; the
    stored timestamps are numbers); for an instrument that was never
    recorded the result is the empty list, not an error.  The histories
    themselves are left as they were. *)
Theorem get_prices_since_is_window (now : float) (m : MarketData) (s : string)
  (since : Z) (w : float) :
  float_of_int since = Ok w ->
  Forall (fun tk => is_number (fst tk) = true) (history m (KStr s)) ->
  let r := get_prices_since now m (PStr s) since in
  snd r = Ok (map snd (filter (at_least (F64.sub now w)) (history m (KStr s)))) /\
  (dict_find (KStr s) (ticks m) = None -> snd r = Ok []) /\
  (forall k, history (fst r) k = history m k).
Proof.
  intros Hw Hnum r. subst r. rewrite get_prices_since_str. simpl.
  rewrite Hw. simpl. split; [| split].
  - now apply prices_from_filter.
  - intros Hnone. unfold history. now rewrite Hnone.
  - intros k. apply history_ensure_symbol.
Qed.

Lemma get_prices_since_is_window_witness :
  float_of_int 1 = Ok (F64.dbl 1 0) /\
  Forall (fun tk => is_number (fst tk) = true)
    (history (record_all three_calls empty_market) (KStr EURUSD)) /\
  snd (get_prices_since (F64.dbl 3 0) (record_all three_calls empty_market) (PStr EURUSD) 1)
  = Ok [F64.dbl 3 (-1); F64.dbl 2 0].
Proof.
  assert (H1 : float_of_int 1 = Ok (F64.dbl 1 0)) by reflexivity.
  assert (H2 : Forall (fun tk => is_number (fst tk) = true)
                 (history (record_all three_calls empty_market) (KStr EURUSD))).
  { vm_compute. repeat constructor. }
  split; [exact H1 |]. split; [exact H2 |].
  exact (proj1 (get_prices_since_is_window (F64.dbl 3 0)
                  (record_all three_calls empty_market) EURUSD 1 (F64.dbl 1 0) H1 H2)).
Defined.

(** An instrument nobody recorded: the query gives the empty list. *)
Example unknown_instrument_is_empty :
  get_prices_since (F64.dbl 3 0) empty_market (PStr EURUSD) 60
  = ({| ticks := [(KStr EURUSD, [])] |}, Ok []).
Proof. reflexivity. Qed.

(** ** C5 *)

(** C5 as stated fails: a NaN price is stored like any other float, and a
    price [float()] cannot take raises out of [add_tick], leaving the new
    instrument's empty history behind. *)
Lemma add_tick_keeps_nan_and_raises :
  F64.is_finite F64.nan = false /\
  add_tick (F64.dbl 7 0) empty_market (PStr EURUSD) (PFloat F64.nan) PNone
  = ({| ticks := [(KStr EURUSD, [(PFloat (F64.dbl 7 0), F64.nan)])] |}, Ok tt) /\
  add_tick (F64.dbl 7 0) empty_market (PStr EURUSD) (PStr "n/a") PNone
  = ({| ticks := [(KStr EURUSD, [])] |}, Raise ValueError).
Proof. repeat split. Qed.

(** C5, amended: [add_tick] has no check of its own on the price, only
    [float()].  Whenever [float(price)] returns, whether the value is
    finite, an infinity or a NaN, the tick is appended to the instrument's
    history (evicting the oldest entry at capacity) and the call returns;
    whenever [float(price)] raises, that exception propagates to the
    caller and no history changes. *)
Theorem add_tick_appends_what_float_takes (now : float) (m : MarketData) (s : string)
  (price ts : pyval) :
  let r := add_tick now m (PStr s) price ts in
  (forall p, py_float price = Ok p ->
             snd r = Ok tt /\
             history (fst r) (KStr s)
             = deque_append MAX_POINTS (history m (KStr s)) (stamp now ts, p)) /\
  (forall e, py_float price = Raise e ->
             snd r = Raise e /\ forall k, history (fst r) k = history m k).
Proof.
  intros r. subst r. split.
  - intros p Hp. rewrite result_add_tick, history_add_tick. simpl.
    rewrite Hp. simpl. now rewrite String.eqb_refl.
  - intros e He. rewrite result_add_tick. simpl. rewrite He. simpl.
    split; [reflexivity |]. intros k. rewrite history_add_tick. simpl. now rewrite He.
Qed.

Lemma add_tick_appends_what_float_takes_witness :
  (py_float (PFloat F64.inf) = Ok F64.inf /\
   snd (add_tick (F64.dbl 7 0) empty_market (PStr EURUSD) (PFloat F64.inf) PNone) = Ok tt /\
   history (fst (add_tick (F64.dbl 7 0) empty_market (PStr EURUSD) (PFloat F64.inf) PNone))
     (KStr EURUSD)
   = deque_append MAX_POINTS (history empty_market (KStr EURUSD))
       (stamp (F64.dbl 7 0) PNone, F64.inf)) /\
  (py_float PNone = Raise TypeError /\
   snd (add_tick (F64.dbl 7 0) empty_market (PStr EURUSD) PNone PNone) = Raise TypeError).
Proof.
  split.
  - split; [reflexivity |].
    exact (proj1 (add_tick_appends_what_float_takes (F64.dbl 7 0) empty_market EURUSD
                    (PFloat F64.inf) PNone) F64.inf eq_refl).
  - split; [reflexivity |].
    exact (proj1 (proj2 (add_tick_appends_what_float_takes (F64.dbl 7 0) empty_market EURUSD
                           PNone PNone) TypeError eq_refl)).
Defined.

(** ** C9 *)

Lemma parse_duration_cases (s : string) :
  parse_duration s =
  if has_unit s then
    match int_of_string (drop_last s) with
    | Some n => Ok (n * (if endswith s "m" then 60 else if endswith s "s" then 1 else 3600))
    | None => Raise ValueError
    end
  else Raise ValueError.
Proof.
  unfold parse_duration, has_unit, py_int.
  destruct (endswith s "m"); simpl.
  - now destruct (int_of_string (drop_last s)).
  - destruct (endswith s "s"); simpl.
    + destruct (int_of_string (drop_last s)) as [n |]; [| reflexivity].
      f_equal. lia.
    + destruct (endswith s "h"); simpl; [| reflexivity].
      now destruct (int_of_string (drop_last s)).
Qed.

(** C9: [parse_duration] raises exactly when the string does not end in
    's', 'm' or 'h', or what precedes the suffix is not an integer for
    [int()]; zero and negative magnitudes are taken ('-3m' gives -180, '0s'
    gives 0), and [handle_signal_command] puts no further test on the two
    durations: once both parse, whatever their sign, it runs the signal
    path on them. *)
Theorem parse_duration_takes_any_integer :
  (forall s, (exists e, parse_duration s = Raise e)
             <-> (has_unit s = false \/ int_of_string (drop_last s) = None)) /\
  parse_duration "-3m" = Ok (-180) /\
  parse_duration "0s" = Ok 0 /\
  (forall w user_sym timeframe expiration tf_seconds exp_seconds,
      parse_duration timeframe = Ok tf_seconds ->
      parse_duration expiration = Ok exp_seconds ->
      handle_signal_command w user_sym timeframe expiration
      = signal_path w user_sym timeframe expiration tf_seconds).
Proof.
  split; [| split; [reflexivity | split; [reflexivity |]]].
  - intros s. rewrite parse_duration_cases.
    destruct (has_unit s).
    + destruct (int_of_string (drop_last s)) as [n |].
      * split; [intros [e He]; discriminate | intros [H | H]; discriminate].
      * split; [now right | now exists ValueError].
    + split; [now left | now exists ValueError].
  - intros w user_sym timeframe expiration tf ex Htf Hex.
    unfold handle_signal_command. now rewrite Htf, Hex.
Qed.

Lemma parse_duration_takes_any_integer_witness :
  parse_duration "-3m" = Ok (-180) /\
  parse_duration "0s" = Ok 0 /\
  handle_signal_command idle_world "EURUSD_OTC" "-3m" "0s"
  = signal_path idle_world "EURUSD_OTC" "-3m" "0s" (-180).
Proof.
  split; [reflexivity |]. split; [reflexivity |].
  exact (proj2 (proj2 (proj2 parse_duration_takes_any_integer))
           idle_world "EURUSD_OTC" "-3m" "0s" (-180) 0 eq_refl eq_refl).
Defined.

(** With a timeframe of minus three minutes the command goes as far as the
    snapshot fetch before it answers. *)
Example negative_timeframe_reaches_fetch :
  handle_signal_command idle_world "EURUSD_OTC" "-3m" "0s"
  = ({| market := {| ticks := [(KStr EURUSD, [])] |};
        clock := F64.dbl 1005 0;
        inbox := [];
        trace := [Send (Ticks (PStr EURUSD)); Wait_for 5; Release] |},
     Ok (short_reply HOLD "failed to retrieve data")).
Proof. reflexivity. Qed.

(** ** C10 *)

Lemma py_get_field (d : list (string * pyval)) (k : string) :
  py_get (PDict d) k PNone = Ok (field d k).
Proof. reflexivity. Qed.

Lemma resolve_price_chain (d : list (string * pyval)) :
  resolve_price (PDict d) =
  Ok (if truthy (field d "quote") then field d "quote"
      else if truthy (field d "price") then field d "price"
      else if truthy (field d "bid") then field d "bid"
      else field d "ask").
Proof.
  unfold resolve_price. rewrite !py_get_field. simpl. unfold py_or.
  destruct (truthy (field d "quote")); [reflexivity |].
  destruct (truthy (field d "price")); [reflexivity |].
  now destruct (truthy (field d "bid")).
Qed.

(** C10 as stated fails: with [quote], [price], [bid] and [ask] all equal
    to zero the tick is recorded, at price 0.0. *)
Lemma listener_records_zero_ask :
  listener_step (F64.dbl 7 0) empty_market (Some all_zero_tick)
  = ({| ticks := [(KStr EURUSD, [(PFloat (F64.dbl 7 0), F64.zero)])] |}, Ok tt).
Proof. reflexivity. Qed.

(** C10, amended: the listener chains the price candidates with [or], so a
    zero (falsy) [quote] falls through to [price], then [bid], then [ask],
    and the chain yields the first truthy candidate or else whatever [ask]
    holds.  When [quote], [price] and [bid] are all zero or absent, the
    tick is discarded, with nothing recorded, if [ask] is absent or null;
    if [ask] is present, even as 0, the tick is recorded at that price.  A
    falsy [symbol] falls through in the same way, to the quote and then to
    the subscription echo, and the tick is discarded when the symbol so
    resolved is falsy. *)
Theorem listener_or_chain_on_zero :
  (forall d, resolve_price (PDict d)
             = Ok (if truthy (field d "quote") then field d "quote"
                   else if truthy (field d "price") then field d "price"
                   else if truthy (field d "bid") then field d "bid"
                   else field d "ask")) /\
  (forall top d,
      resolve_symbol (PDict top) (PDict d)
      = if truthy (field d "symbol") then Ok (field d "symbol")
        else if truthy (field d "quote") then Ok (field d "quote")
        else match dict_lookup "echo_req" top with
             | Some e => py_get e "subscribe" PNone
             | None => Ok PNone
             end) /\
  (forall now m top d symbol,
      dict_lookup "tick" top = Some (PDict d) ->
      truthy (field d "quote") = false ->
      truthy (field d "price") = false ->
      truthy (field d "bid") = false ->
      resolve_symbol (PDict top) (PDict d) = Ok symbol ->
      listener_step now m (Some (PDict top))
      = if truthy symbol && negb (is_none (field d "ask"))
        then add_tick now m symbol (field d "ask") (epoch_or now d)
        else (m, Ok tt)).
Proof.
  split; [exact resolve_price_chain |]. split.
  - intros top d. unfold resolve_symbol. rewrite !py_get_field. simpl. unfold py_or.
    destruct (truthy (field d "symbol")); [reflexivity |].
    destruct (truthy (field d "quote")); [reflexivity |].
    now destruct (dict_lookup "echo_req" top).
  - intros now m top d symbol Htick Hq Hp Hb Hsym.
    unfold listener_step, listener_dispatch. simpl. rewrite Htick. simpl.
    rewrite resolve_price_chain, Hq, Hp, Hb, Hsym. simpl.
    now destruct (truthy symbol && negb (is_none (field d "ask"))).
Qed.

Lemma listener_or_chain_on_zero_witness :
  dict_lookup "tick" zero_quote_tick
  = Some (PDict [("symbol", PStr EURUSD); ("quote", PFloat F64.zero)]) /\
  resolve_symbol (PDict zero_quote_tick)
    (PDict [("symbol", PStr EURUSD); ("quote", PFloat F64.zero)]) = Ok (PStr EURUSD) /\
  listener_step (F64.dbl 7 0) empty_market (Some (PDict zero_quote_tick))
  = (empty_market, Ok tt).
Proof.
  split; [reflexivity |]. split; [reflexivity |].
  exact (proj2 (proj2 listener_or_chain_on_zero) (F64.dbl 7 0) empty_market zero_quote_tick
           [("symbol", PStr EURUSD); ("quote", PFloat F64.zero)] (PStr EURUSD)
           eq_refl eq_refl eq_refl eq_refl eq_refl).
Defined.

(** ** C8 *)

(** C8: a payload that is not JSON, or a tick object without a price, is
    dropped by the listener, which goes on to the next message; in the
    snapshot fetch the same message raises ([JSONDecodeError], or
    [TypeError] from [float(None)]) out of the loop: the fetch ends there,
    sends no [forget], and returns nothing of what it had collected. *)
Theorem fetch_raises_where_listener_discards :
  (forall now m, listener_step now m None = (m, Ok tt)) /\
  (forall now m symbol collected,
      fetch_step now m symbol None collected = (m, Raise JSONDecodeError)) /\
  (forall now m, listener_step now m (Some priceless_tick) = (m, Ok tt)) /\
  (forall now m symbol collected,
      fetch_step now m symbol (Some priceless_tick) collected = (m, Raise TypeError)) /\
  deriv_ws_listener empty_market (F64.dbl 1000 0) noise_then_tick
  = ({| ticks := [(KStr EURUSD, [(PInt 1002, F64.dbl 3 (-1))])] |}, Waiting) /\
  subscribe_and_fetch empty_market (F64.dbl 1000 0) noise_then_tick (PStr EURUSD) 5
  = {| f_market := empty_market;
       f_clock := F64.dbl 1001 0;
       f_inbox := [Frame (F64.dbl 1002 0) (tick_message (PFloat (F64.dbl 3 (-1))) 1002)];
       f_trace := [Send (Ticks (PStr EURUSD)); Wait_for 5; Release];
       f_result := Raise JSONDecodeError |}.
Proof. repeat split. Qed.

(** ** C3 *)

Lemma collect_trace (symbol : pyval) (d : Z) (start : float) (inbox : list frame) :
  forall clock m trace collected,
  exists n,
    f_trace (collect symbol d start inbox clock m trace collected)
    = trace ++ repeat (Wait_for d) n.
Proof.
  induction inbox as [| fr rest IH]; intros clock m trace collected.
  - simpl. destruct (lt_int (F64.sub clock start) d); simpl.
    + now exists 1%nat.
    + exists 0%nat. simpl. now rewrite app_nil_r.
  - simpl. destruct (lt_int (F64.sub clock start) d); simpl.
    + destruct fr as [arrival msg | arrival].
      * destruct (F64.le arrival (F64.add clock (F64.dbl d 0))); [| now exists 1%nat].
        destruct (fetch_step (later clock arrival) m symbol msg collected) as [m' [c' | e]].
        -- destruct (IH (later clock arrival) m' (trace ++ [Wait_for d]) c') as [n Hn].
           exists (S n). rewrite Hn, <- app_assoc. reflexivity.
        -- now exists 1%nat.
      * destruct (F64.le arrival (F64.add clock (F64.dbl d 0))); now exists 1%nat.
    + exists 0%nat. simpl. now rewrite app_nil_r.
Qed.

Lemma sub_diag_finite (x : float) :
  F64.is_finite x = true -> F64.sub x x = F64.zero.
Proof.
  destruct x as [s | s | | s m e]; try discriminate; intros _.
  - now destruct s.
  - unfold F64.sub, SFsub. now rewrite Z.sub_diag.
Qed.

Lemma subscribe_and_fetch_cases (m : MarketData) (clock : float) (inbox : list frame)
  (symbol : pyval) (d : Z) :
  let f := subscribe_and_fetch m clock inbox symbol d in
  let loop := collect symbol d clock inbox clock m [Send (Ticks symbol)] [] in
  if closed_by clock inbox then
    f = {| f_market := m; f_clock := clock; f_inbox := inbox;
           f_trace := [Send (Ticks symbol); Release];
           f_result := Raise ConnectionClosed |}
  else
    f_market f = f_market loop /\ f_clock f = f_clock loop /\ f_inbox f = f_inbox loop /\
    match f_result loop with
    | Raise e => f_trace f = f_trace loop ++ [Release] /\ f_result f = Raise e
    | Ok collected =>
        f_trace f = f_trace loop ++ [Send (Forget symbol); Release] /\
        f_result f = if closed_by (f_clock loop) (f_inbox loop)
                     then Raise ConnectionClosed else Ok collected
    end.
Proof.
  intros f loop. subst f loop. unfold subscribe_and_fetch, send.
  destruct (closed_by clock inbox); [reflexivity |].
  change ([] ++ [Send (Ticks symbol)]) with [Send (Ticks symbol)].
  destruct (f_result (collect symbol d clock inbox clock m [Send (Ticks symbol)] []))
    as [collected | e]; cbn iota beta.
  - destruct (closed_by _ _); cbn [f_market f_clock f_inbox f_trace f_result];
      rewrite <- app_assoc; repeat split.
  - cbn [f_market f_clock f_inbox f_trace f_result]. repeat split.
Qed.

Lemma subscribe_and_fetch_shape (m : MarketData) (clock : float) (inbox : list frame)
  (symbol : pyval) (d : Z) :
  let f := subscribe_and_fetch m clock inbox symbol d in
  exists n tail,
    f_trace f = Send (Ticks symbol) :: repeat (Wait_for d) n ++ tail /\
    match f_result f with
    | Ok _ => tail = [Send (Forget symbol); Release]
    | Raise e =>
        tail = [Release] \/
        (e = ConnectionClosed /\ tail = [Send (Forget symbol); Release])
    end.
Proof.
  intros f. subst f.
  pose proof (subscribe_and_fetch_cases m clock inbox symbol d) as H. cbv zeta in H.
  destruct (closed_by clock inbox).
  - rewrite H. exists 0%nat, [Release]. cbn. auto.
  - destruct H as (_ & _ & _ & H).
    destruct (collect_trace symbol d clock inbox clock m [Send (Ticks symbol)] [])
      as [n Hn].
    rewrite Hn in H.
    destruct (f_result (collect symbol d clock inbox clock m [Send (Ticks symbol)] []))
      as [collected | e]; destruct H as [Ht Hr].
    + exists n, [Send (Forget symbol); Release]. rewrite Ht, Hr.
      split; [now rewrite <- app_assoc |].
      destruct (closed_by _ _); auto.
    + exists n, [Release]. rewrite Ht, Hr.
      split; [now rewrite <- app_assoc | auto].
Qed.

Lemma subscribe_and_fetch_trace (m : MarketData) (clock : float) (inbox : list frame)
  (symbol : pyval) (d : Z) :
  let f := subscribe_and_fetch m clock inbox symbol d in
  exists n,
    f_trace f = Send (Ticks symbol) :: repeat (Wait_for d) n ++
                [Send (Forget symbol); Release] \/
    f_trace f = Send (Ticks symbol) :: repeat (Wait_for d) n ++ [Release].
Proof.
  intros f. subst f.
  destruct (subscribe_and_fetch_shape m clock inbox symbol d) as (n & tail & Ht & H).
  exists n. rewrite Ht.
  destruct (f_result (subscribe_and_fetch m clock inbox symbol d)) as [c | e].
  - subst tail. now left.
  - destruct H as [-> | [_ ->]]; [now right | now left].
Qed.

(** C3 as stated fails: when no message at all arrives, the receive times
    out, the fetch raises [TimeoutError] instead of returning an empty
    list, and no [forget] request is sent. *)
Lemma silent_fetch_sends_no_forget :
  subscribe_and_fetch empty_market (F64.dbl 1000 0) [] (PStr EURUSD) 5
  = {| f_market := empty_market;
       f_clock := F64.dbl 1005 0;
       f_inbox := [];
       f_trace := [Send (Ticks (PStr EURUSD)); Wait_for 5; Release];
       f_result := Raise TimeoutError |}.
Proof. reflexivity. Qed.

(** A provider that has closed the connection makes [ws.send] raise: the
    subscribe request when the close came first, the [forget] request
    when it came during the loop, the ticks read until then staying in
    the store without being returned. *)
Example send_on_closed_connection :
  subscribe_and_fetch empty_market (F64.dbl 1000 0) [Close (F64.dbl 1000 0)] (PStr EURUSD) 0
  = {| f_market := empty_market;
       f_clock := F64.dbl 1000 0;
       f_inbox := [Close (F64.dbl 1000 0)];
       f_trace := [Send (Ticks (PStr EURUSD)); Release];
       f_result := Raise ConnectionClosed |} /\
  subscribe_and_fetch empty_market (F64.dbl 1000 0) ticks_then_close (PStr EURUSD) 5
  = {| f_market :=
         {| ticks := [(KStr EURUSD, [(PInt 1001, F64.dbl 3 (-1)); (PInt 1004, F64.dbl 2 0);
                                     (PInt 1006, F64.dbl 5 (-1))])] |};
       f_clock := F64.dbl 1006 0;
       f_inbox := [Close (F64.dbl 1006 0)];
       f_trace := [Send (Ticks (PStr EURUSD)); Wait_for 5; Wait_for 5; Wait_for 5;
                   Send (Forget (PStr EURUSD)); Release];
       f_result := Raise ConnectionClosed |}.
Proof. split; reflexivity. Qed.

(** C3, amended: every run of [subscribe_and_fetch] calls [ws.send] with
    the subscribe request first, then only waits for messages, and
    releases the connection last.  Whenever the fetch returns, exactly one
    [forget] request has been sent, just before the release.  When the
    provider has already closed the connection the subscribe call raises
    [ConnectionClosed] and nothing else happens.  Otherwise the loop runs:
    when it is left by an exception, that exception propagates and no
    [forget] request is sent; when it ends by its own test, [ws.send] is
    called once with the [forget] request, and the collected list is
    returned unless the provider has closed the connection by then, in
    which case that call raises [ConnectionClosed].  The connection is
    released in every case.  In particular a provider that stays silent
    makes the fetch raise [TimeoutError]. *)
Theorem fetch_trace_shape :
  (forall m clock inbox symbol d,
      let f := subscribe_and_fetch m clock inbox symbol d in
      exists n tail,
        f_trace f = Send (Ticks symbol) :: repeat (Wait_for d) n ++ tail /\
        match f_result f with
        | Ok _ => tail = [Send (Forget symbol); Release]
        | Raise e =>
            tail = [Release] \/
            (e = ConnectionClosed /\ tail = [Send (Forget symbol); Release])
        end) /\
  (forall m clock inbox symbol d,
      let f := subscribe_and_fetch m clock inbox symbol d in
      let loop := collect symbol d clock inbox clock m [Send (Ticks symbol)] [] in
      if closed_by clock inbox then
        f = {| f_market := m; f_clock := clock; f_inbox := inbox;
               f_trace := [Send (Ticks symbol); Release];
               f_result := Raise ConnectionClosed |}
      else
        f_market f = f_market loop /\ f_clock f = f_clock loop /\
        f_inbox f = f_inbox loop /\
        match f_result loop with
        | Raise e => f_trace f = f_trace loop ++ [Release] /\ f_result f = Raise e
        | Ok collected =>
            f_trace f = f_trace loop ++ [Send (Forget symbol); Release] /\
            f_result f = if closed_by (f_clock loop) (f_inbox loop)
                         then Raise ConnectionClosed else Ok collected
        end) /\
  (forall m clock symbol d,
      F64.is_finite clock = true -> 0 < d ->
      let f := subscribe_and_fetch m clock [] symbol d in
      f_result f = Raise TimeoutError /\
      f_trace f = [Send (Ticks symbol); Wait_for d; Release]).
Proof.
  split; [| split].
  - intros m clock inbox symbol d. apply subscribe_and_fetch_shape.
  - intros m clock inbox symbol d. apply subscribe_and_fetch_cases.
  - intros m clock symbol d Hfin Hd f. subst f. unfold subscribe_and_fetch. simpl.
    rewrite sub_diag_finite by assumption.
    assert (Hlt : lt_int F64.zero d = true).
    { unfold lt_int. simpl. destruct d; [lia | reflexivity | lia]. }
    rewrite Hlt. simpl. split; reflexivity.
Qed.

Lemma fetch_trace_shape_witness :
  F64.is_finite (F64.dbl 1000 0) = true /\ 0 < 5 /\
  f_result (subscribe_and_fetch empty_market (F64.dbl 1000 0) [] (PStr EURUSD) 5)
  = Raise TimeoutError /\
  f_trace (subscribe_and_fetch empty_market (F64.dbl 1000 0) [] (PStr EURUSD) 5)
  = [Send (Ticks (PStr EURUSD)); Wait_for 5; Release].
Proof.
  split; [reflexivity |]. split; [lia |].
  apply (proj2 (proj2 fetch_trace_shape) empty_market (F64.dbl 1000 0) (PStr EURUSD) 5);
    [reflexivity | lia].
Defined.

(** ** C4 *)

(** C4 as stated fails: three seconds into a five-second fetch the next
    receive is again given five seconds, not the two that remain, and when
    nothing arrives the fetch raises [TimeoutError] at second eight; the
    tick it had collected is in the store but is not returned. *)
Lemma late_receive_waits_whole_duration :
  F64.sub (F64.dbl 5 0) (F64.sub (F64.dbl 1003 0) (F64.dbl 1000 0)) = F64.dbl 2 0 /\
  subscribe_and_fetch empty_market (F64.dbl 1000 0) tick_then_silence (PStr EURUSD) 5
  = {| f_market := {| ticks := [(KStr EURUSD, [(PInt 1003, F64.dbl 3 (-1))])] |};
       f_clock := F64.dbl 1008 0;
       f_inbox := [];
       f_trace := [Send (Ticks (PStr EURUSD)); Wait_for 5; Wait_for 5; Release];
       f_result := Raise TimeoutError |}.
Proof. split; reflexivity. Qed.

(** C4, amended: every receive of the snapshot loop is given the whole
    [duration_seconds] as its timeout, however much of the budget has
    elapsed.  When no message arrives before that timeout the loop ends
    with [TimeoutError], which propagates out of the fetch: the ticks
    collected so far are not returned (those already forwarded stay in the
    store), and [handle_signal_command] turns the failure into a HOLD reply,
    "failed to retrieve data". *)
Theorem receive_timeout_is_whole_duration :
  (forall m clock inbox symbol d t,
      In (Wait_for t) (f_trace (subscribe_and_fetch m clock inbox symbol d)) -> t = d) /\
  (forall symbol d start inbox clock m trace collected,
      lt_int (F64.sub clock start) d = true ->
      overdue (F64.add clock (F64.dbl d 0)) inbox = true ->
      collect symbol d start inbox clock m trace collected
      = {| f_market := m; f_clock := F64.add clock (F64.dbl d 0); f_inbox := inbox;
           f_trace := trace ++ [Wait_for d]; f_result := Raise TimeoutError |}) /\
  (forall w user_sym timeframe expiration tf_seconds m prices e,
      get_prices_since (clock w) (market w) (PStr (format_symbol user_sym)) (tf_seconds * 3)
      = (m, Ok prices) ->
      Z.of_nat (List.length prices) < Z.max 10 tf_seconds ->
      f_result (subscribe_and_fetch m (clock w) (inbox w) (PStr (format_symbol user_sym))
                  (Z.min 10 (Z.max 5 tf_seconds))) = Raise e ->
      snd (signal_path w user_sym timeframe expiration tf_seconds)
      = Ok (short_reply HOLD "failed to retrieve data")).
Proof.
  split; [| split].
  - intros m clock inbox symbol d t Hin.
    destruct (subscribe_and_fetch_trace m clock inbox symbol d) as [n [Hn | Hn]];
      rewrite Hn in Hin; (destruct Hin as [Hin | Hin]; [discriminate |]);
      apply in_app_or in Hin; destruct Hin as [Hin | Hin];
      try (apply repeat_spec in Hin; congruence);
      simpl in Hin; intuition discriminate.
  - intros symbol d start inbox clock m trace collected Hlt Hover.
    destruct inbox as [| [arrival msg | arrival] rest]; simpl; rewrite Hlt.
    + reflexivity.
    + simpl in Hover. apply negb_true_iff in Hover. now rewrite Hover.
    + simpl in Hover. apply negb_true_iff in Hover. now rewrite Hover.
  - intros w user_sym timeframe expiration tf m prices e Hget Hfew Hraise.
    unfold signal_path. rewrite Hget. rewrite Z.div_1_r.
    destruct (Z.ltb_spec (Z.of_nat (List.length prices)) (Z.max 10 tf)) as [_ | H]; [| lia].
    now rewrite Hraise.
Qed.

Lemma receive_timeout_is_whole_duration_witness :
  lt_int (F64.sub (F64.dbl 1003 0) (F64.dbl 1000 0)) 5 = true /\
  overdue (F64.add (F64.dbl 1003 0) (F64.dbl 5 0)) [] = true /\
  collect (PStr EURUSD) 5 (F64.dbl 1000 0) [] (F64.dbl 1003 0) empty_market
    [Send (Ticks (PStr EURUSD)); Wait_for 5] []
  = {| f_market := empty_market; f_clock := F64.add (F64.dbl 1003 0) (F64.dbl 5 0);
       f_inbox := [];
       f_trace := [Send (Ticks (PStr EURUSD)); Wait_for 5] ++ [Wait_for 5];
       f_result := Raise TimeoutError |}.
Proof.
  split; [reflexivity |]. split; [reflexivity |].
  exact (proj1 (proj2 receive_timeout_is_whole_duration) (PStr EURUSD) 5 (F64.dbl 1000 0) []
           (F64.dbl 1003 0) empty_market [Send (Ticks (PStr EURUSD)); Wait_for 5] []
           eq_refl eq_refl).
Defined.

(** ** Order and sign of binary64 values *)






















Lemma mean_returns (data : list float) :
  data <> [] -> exists x, mean data = Ok x.
Proof.
  destruct data as [| d data]; [congruence | intros _].
  unfold mean. destruct (forallb F64.is_finite (d :: data)).
  - destruct (exact_sum (d :: data)) as [s k]. eauto.
  - eauto.
Qed.

Lemma lastn_nonempty {A : Type} (n : nat) (l : list A) :
  (0 < n)%nat -> l <> [] -> lastn n l <> [].
Proof.
  intros Hn Hl E. apply (f_equal (@List.length A)) in E.
  unfold lastn in E. rewrite length_skipn in E. simpl in E.
  assert (0 < List.length l)%nat by (destruct l; [congruence | simpl; lia]).
  lia.
Qed.

(** ** C7 *)




(** Ten rising integer prices give BUY, ten falling ones SELL, ten equal
    ones HOLD. *)
Example rising_falling_flat :
  (exists i, compute_signal (map (fun z => F64.dbl z 0) [1; 2; 3; 4; 5; 6; 7; 8; 9; 10]) 3 8
             = Ok (BUY, i)) /\
  (exists i, compute_signal (map (fun z => F64.dbl z 0) [10; 9; 8; 7; 6; 5; 4; 3; 2; 1]) 3 8
             = Ok (SELL, i)) /\
  (exists i, compute_signal (map (fun z => F64.dbl z 0) [1; 1; 1; 1; 1; 1; 1; 1; 1; 1]) 3 8
             = Ok (HOLD, i)).
Proof. repeat split; eexists; reflexivity. Qed.

(** ** Numerals and durations *)

Lemma chars_app (a b : string) : chars (a ++ b)%string = chars a ++ chars b.
Proof. unfold chars. induction a as [| c a IH]; simpl; [reflexivity | now rewrite IH]. Qed.

Lemma chars_of_list (l : list ascii) : chars (string_of_list_ascii l) = l.
Proof. apply list_ascii_of_string_of_list_ascii. Qed.

Lemma digit_char (d : Z) :
  0 <= d <= 9 ->
  let c := ascii_of_nat (Z.to_nat (48 + d)) in
  is_digit c = true /\ digit_val c = d /\ is_space c = false
  /\ Ascii.eqb c "-" = false /\ Ascii.eqb c "+" = false.
Proof.
  intros H.
  assert (E : d = 0 \/ d = 1 \/ d = 2 \/ d = 3 \/ d = 4 \/ d = 5 \/ d = 6 \/ d = 7
              \/ d = 8 \/ d = 9) by lia.
  repeat (destruct E as [-> | E]; [repeat split |]); subst; repeat split.
Qed.

(** Horner value of a run of digit characters. *)
Lemma digitpart_rest_digits (l : list ascii) :
  Forall (fun c => is_digit c = true) l ->
  forall acc n,
    digitpart_rest acc n l
    = (fold_left (fun a c => 10 * a + digit_val c) l acc, n + Z.of_nat (List.length l), []).
Proof.
  induction 1 as [| c l Hc _ IH]; intros acc n; simpl digitpart_rest.
  - simpl. now rewrite Z.add_0_r.
  - rewrite Hc, IH. cbn [fold_left List.length]. rewrite Nat2Z.inj_succ.
    f_equal. f_equal. lia.
Qed.

Lemma digits_rev_spec (fuel : nat) :
  forall n, 0 <= n < 2 ^ Z.of_nat fuel ->
  let l := digits_rev fuel n in
  (fuel <> O -> l <> []) /\
  Forall (fun c => is_digit c = true /\ is_space c = false
                   /\ Ascii.eqb c "-" = false /\ Ascii.eqb c "+" = false) l /\
  fold_right (fun c a => digit_val c + 10 * a) 0 l = n.
Proof.
  induction fuel as [| fuel IH]; intros n Hn.
  - simpl in *. split; [congruence |]. split; [constructor |]. lia.
  - cbn [digits_rev].
    assert (Hd : 0 <= n mod 10 <= 9) by (pose proof (Z.mod_pos_bound n 10); lia).
    destruct (digit_char (n mod 10) Hd) as (D1 & D2 & D3 & D4 & D5).
    split; [discriminate |].
    destruct (Z.eqb_spec (n / 10) 0) as [E | E].
    + split; [repeat constructor; assumption |].
      cbn [fold_right]. rewrite D2. pose proof (Z.div_mod n 10). lia.
    + assert (Hq : 0 <= n / 10 < 2 ^ Z.of_nat fuel).
      { split; [apply Z.div_pos; lia |].
        rewrite Nat2Z.inj_succ, Z.pow_succ_r in Hn by lia.
        apply Z.div_lt_upper_bound; lia. }
      destruct (IH (n / 10) Hq) as (_ & F & V).
      split; [constructor; [repeat split; assumption | exact F] |].
      cbn [fold_right]. rewrite D2, V. pose proof (Z.div_mod n 10). lia.
Qed.

Lemma horner_rev (l : list ascii) :
  fold_left (fun a c => 10 * a + digit_val c) (rev l) 0
  = fold_right (fun c a => digit_val c + 10 * a) 0 l.
Proof.
  induction l as [| c l IH]; [reflexivity |].
  cbn [rev fold_right]. rewrite fold_left_app, IH. cbn [fold_left]. lia.
Qed.

Lemma lstrip_head (c : ascii) (l : list ascii) :
  is_space c = false -> lstrip (c :: l) = c :: l.
Proof. intros H. simpl. now rewrite H. Qed.

(** [int()] reads back the numeral of every integer. *)
Lemma int_of_numeral (n : Z) : int_of_string (numeral n) = Some n.
Proof.
  unfold numeral.
  set (a := Z.abs n).
  assert (Ha : 0 <= a < 2 ^ Z.of_nat (S (Z.to_nat (Z.log2 a)))).
  { split; [subst a; lia |].
    rewrite Nat2Z.inj_succ, Z2Nat.id by apply Z.log2_nonneg.
    destruct (Z.eq_dec a 0) as [-> | Hnz]; [reflexivity |].
    apply Z.log2_spec. subst a. lia. }
  destruct (digits_rev_spec _ a Ha) as (Hne & Hall & Hval).
  set (ds := digits_rev (S (Z.to_nat (Z.log2 a))) a) in *.
  specialize (Hne ltac:(discriminate)).
  assert (Hrev : Forall (fun c => is_digit c = true /\ is_space c = false
                   /\ Ascii.eqb c "-" = false /\ Ascii.eqb c "+" = false) (rev ds))
    by (apply Forall_rev; exact Hall).
  destruct (rev ds) as [| c r] eqn:Er.
  { apply (f_equal (@rev ascii)) in Er. rewrite rev_involutive in Er. contradiction. }
  assert (Hlast : exists c' r', rev (c :: r) = c' :: r' /\ is_space c' = false).
  { rewrite <- Er, rev_involutive. destruct ds as [| c' r']; [contradiction |].
    exists c', r'. split; [reflexivity |]. now inversion Hall as [| ? ? (_ & ? & _) _]. }
  destruct Hlast as (c' & r' & Erev & Hsp').
  inversion Hrev as [| ? ? (Hd & Hsp & Hm & Hp) Hr]; subst.
  assert (Hdigits : digitpart (c :: r)
                    = Some (a, 1 + Z.of_nat (List.length r), [])).
  { unfold digitpart. rewrite Hd, digitpart_rest_digits
      by (eapply Forall_impl; [| exact Hr]; intros ? (? & _); assumption).
    repeat f_equal.
    rewrite <- Hval, <- horner_rev, Er. cbn [fold_left]. f_equal. }
  unfold int_of_string.
  destruct (Z.ltb_spec n 0) as [Hneg | Hpos].
  - assert (Hstrip : strip (chars (String "-" (string_of_list_ascii (c :: r))))
                     = "-"%char :: c :: r).
    { unfold strip, chars. cbn [list_ascii_of_string].
      fold (chars (string_of_list_ascii (c :: r))). rewrite chars_of_list.
      rewrite lstrip_head by reflexivity.
      change (rev ("-"%char :: c :: r)) with (rev (c :: r) ++ ["-"%char]).
      rewrite Erev. cbn [app]. rewrite lstrip_head by assumption.
      change (c' :: r' ++ ["-"%char]) with ((c' :: r') ++ ["-"%char]).
      rewrite <- Erev, rev_app_distr, rev_involutive. reflexivity. }
    rewrite Hstrip. cbn [sign_prefix]. change (Ascii.eqb "-" "-") with true. cbv iota.
    rewrite Hdigits. f_equal. subst a. lia.
  - assert (Hstrip : strip (chars (string_of_list_ascii (c :: r))) = c :: r).
    { unfold strip. rewrite chars_of_list, lstrip_head by assumption.
      rewrite Erev, lstrip_head by assumption.
      rewrite <- Erev. apply rev_involutive. }
    rewrite Hstrip. cbn [sign_prefix]. rewrite Hm, Hp.
    rewrite Hdigits. f_equal. subst a. lia.
Qed.

Lemma endswith_app (s : string) (c x : ascii) :
  endswith (s ++ String c "")%string x = Ascii.eqb c x.
Proof.
  unfold endswith. rewrite chars_app. unfold chars at 2. cbn [list_ascii_of_string].
  now rewrite rev_app_distr.
Qed.

Lemma drop_last_app (s : string) (c : ascii) :
  drop_last (s ++ String c "")%string = s.
Proof.
  unfold drop_last. rewrite chars_app. unfold chars at 2. cbn [list_ascii_of_string].
  rewrite removelast_last. apply string_of_list_ascii_of_string.
Qed.

(** X1: [parse_duration] reads back the decimal numeral of every integer,
    negative ones included, with its unit: [str(n) + 's'] gives [n],
    [str(n) + 'm'] gives [60 n] and [str(n) + 'h'] gives [3600 n]. *)
Theorem parse_duration_of_numeral (n : Z) :
  parse_duration (numeral n ++ "s") = Ok n /\
  parse_duration (numeral n ++ "m") = Ok (n * 60) /\
  parse_duration (numeral n ++ "h") = Ok (n * 3600).
Proof.
  unfold parse_duration, py_int.
  rewrite !endswith_app, !drop_last_app, int_of_numeral.
  repeat split.
Qed.

(** ** More on the store *)

Lemma deque_append_newest {A : Type} (d : list A) (x : A) :
  exists older, deque_append MAX_POINTS d x = older ++ [x]
                /\ (older = d \/ older = tl d).
Proof.
  unfold deque_append.
  destruct (Z.ltb_spec MAX_POINTS (Z.of_nat (List.length (d ++ [x])))) as [H | H].
  - destruct d as [| a d].
    + simpl in H. unfold MAX_POINTS in H. lia.
    + exists d. split; [reflexivity | now right].
  - exists d. split; [reflexivity | now left].
Qed.

Lemma dict_set_absent {V : Type} (k : key) (v : V) (d : list (key * V)) :
  dict_find k d = None -> dict_set k v d = d ++ [(k, v)].
Proof.
  induction d as [| [k' v'] d IH]; simpl; [reflexivity |].
  destruct (key_eqb k k'); [discriminate |]. intros H. now rewrite IH.
Qed.

Lemma prices_from_app (cutoff : float) (a b : list tick) :
  prices_from cutoff (a ++ b)
  = (pa <- prices_from cutoff a ;; pb <- prices_from cutoff b ;; Ok (pa ++ pb)).
Proof.
  induction a as [| [t p] a IH]; simpl.
  - now destruct (prices_from cutoff b).
  - destruct (py_ge_float t cutoff) as [c |]; [| reflexivity]. simpl.
    rewrite IH. destruct (prices_from cutoff a) as [pa |]; [| reflexivity]. simpl.
    destruct (prices_from cutoff b) as [pb |]; [| reflexivity]. simpl.
    now destruct c.
Qed.

Lemma prices_from_raises (cutoff : float) (d : list tick) (e : exn) :
  prices_from cutoff d = Raise e -> e = TypeError.
Proof.
  induction d as [| [t p] d IH]; simpl; [discriminate |].
  destruct (py_ge_float t cutoff) as [c |] eqn:E; simpl.
  - destruct (prices_from cutoff d) as [ps |]; simpl; [discriminate |].
    intros H. injection H as <-. now apply IH.
  - intros H. injection H as <-.
    destruct t; simpl in E; congruence.
Qed.

Lemma prices_from_not_a_number (cutoff : float) (d : list tick) :
  Exists (fun tk => is_number (fst tk) = false) d ->
  prices_from cutoff d = Raise TypeError.
Proof.
  induction 1 as [[t p] d Ht | [t p] d _ IH]; simpl.
  - simpl in Ht. destruct t; try discriminate; reflexivity.
  - rewrite IH. destruct (py_ge_float t cutoff) as [c |] eqn:E; simpl; [reflexivity |].
    destruct t; simpl in E; congruence.
Qed.

(** X2: [add_tick] on one instrument leaves the history of every other
    instrument as it was, whether the call returns or raises. *)
Theorem add_tick_leaves_other_instruments (now : float) (m : MarketData)
  (symbol price ts : pyval) (k k' : key) :
  symbol_key m symbol = Ok k' -> k <> k' ->
  history (fst (add_tick now m symbol price ts)) k = history m k.
Proof.
  intros Hk Hne. rewrite history_add_tick, Hk.
  destruct (py_float price); [| reflexivity].
  destruct (key_eqb k k') eqn:E; [| reflexivity].
  apply key_eqb_eq in E. contradiction.
Qed.

Lemma add_tick_leaves_other_instruments_witness :
  symbol_key (record_all three_calls empty_market) (PStr "frxGBPUSD") = Ok (KStr "frxGBPUSD") /\
  KStr EURUSD <> KStr "frxGBPUSD" /\
  history (fst (add_tick (F64.dbl 4 0) (record_all three_calls empty_market)
                  (PStr "frxGBPUSD") (PInt 1) PNone)) (KStr EURUSD)
  = history (record_all three_calls empty_market) (KStr EURUSD).
Proof.
  split; [reflexivity |]. split; [discriminate |].
  apply (add_tick_leaves_other_instruments (F64.dbl 4 0)
           (record_all three_calls empty_market) (PStr "frxGBPUSD") (PInt 1) PNone
           (KStr EURUSD) (KStr "frxGBPUSD")); [reflexivity | discriminate].
Defined.

(** X3: a tick whose price [float()] takes becomes the newest entry of its
    instrument's history, in front of it the old history, less its oldest
    entry at most; and every later query that succeeds with a window
    reaching the tick's timestamp returns the tick's price last. *)
Theorem add_tick_then_query (now : float) (m : MarketData) (s : string)
  (price ts : pyval) (p : float) :
  py_float price = Ok p ->
  let m' := fst (add_tick now m (PStr s) price ts) in
  (exists older, history m' (KStr s) = older ++ [(stamp now ts, p)]
                 /\ (older = history m (KStr s) \/ older = tl (history m (KStr s)))) /\
  (forall now' since prices,
      snd (get_prices_since now' m' (PStr s) since) = Ok prices ->
      at_least (F64.sub now' (F64.dbl since 0)) (stamp now ts, p) = true ->
      exists front, prices = front ++ [p]).
Proof.
  intros Hp m'.
  assert (Hh : exists older, history m' (KStr s) = older ++ [(stamp now ts, p)]
                 /\ (older = history m (KStr s) \/ older = tl (history m (KStr s)))).
  { subst m'. rewrite history_add_tick. simpl. rewrite Hp, String.eqb_refl.
    apply deque_append_newest. }
  split; [exact Hh |].
  intros now' since prices Hq Hge.
  destruct Hh as (older & Hh & _).
  rewrite get_prices_since_str in Hq. simpl in Hq.
  unfold float_of_int in Hq.
  destruct (F64.dbl since 0) as [z | i | | sg mm ee] eqn:Ew; simpl in Hq; try discriminate;
    rewrite Hh, prices_from_app in Hq;
    (destruct (prices_from _ older) as [front |]; [| discriminate]);
    simpl in Hq; unfold at_least in Hge; simpl in Hge;
    (destruct (py_ge_float (stamp now ts) _) as [b |]; [| discriminate]);
    subst b; simpl in Hq; injection Hq as <-; now exists front.
Qed.

Lemma add_tick_then_query_witness :
  py_float (PInt 2) = Ok (F64.dbl 2 0) /\
  snd (get_prices_since (F64.dbl 5 0)
         (fst (add_tick (F64.dbl 4 0) (record_all three_calls empty_market)
                 (PStr EURUSD) (PInt 2) PNone)) (PStr EURUSD) 2)
  = Ok [F64.dbl 2 0; F64.dbl 2 0] /\
  at_least (F64.sub (F64.dbl 5 0) (F64.dbl 2 0)) (stamp (F64.dbl 4 0) PNone, F64.dbl 2 0) = true /\
  exists front, [F64.dbl 2 0; F64.dbl 2 0] = front ++ [F64.dbl 2 0].
Proof.
  split; [reflexivity |]. split; [reflexivity |]. split; [reflexivity |].
  exact (proj2 (add_tick_then_query (F64.dbl 4 0) (record_all three_calls empty_market)
                  EURUSD (PInt 2) PNone (F64.dbl 2 0) eq_refl)
           (F64.dbl 5 0) 2 [F64.dbl 2 0; F64.dbl 2 0] eq_refl eq_refl).
Defined.

(** X4: [get_prices_since] is not read-only: for an instrument the store
    has not seen it appends an empty history under that name, also when
    the query then raises; for a known instrument the store is unchanged. *)
Theorem get_prices_since_registers_instrument (now : float) (m : MarketData) (s : string)
  (since : Z) :
  fst (get_prices_since now m (PStr s) since)
  = match dict_find (KStr s) (ticks m) with
    | Some _ => m
    | None => {| ticks := ticks m ++ [(KStr s, [])] |}
    end.
Proof.
  rewrite get_prices_since_str. simpl. unfold ensure_symbol.
  destruct (dict_find (KStr s) (ticks m)) eqn:E; [reflexivity |].
  now rewrite dict_set_absent.
Qed.

(** X5: [add_tick] stores a timestamp that is not a number (a string, a
    list, an object) without complaint, and from then on
    [get_prices_since] on that instrument raises [TypeError], whatever the
    window. *)
Theorem stored_bad_timestamp_breaks_queries (now : float) (m : MarketData) (s : string)
  (price ts : pyval) (p : float) :
  py_float price = Ok p ->
  is_none ts = false ->
  is_number ts = false ->
  snd (add_tick now m (PStr s) price ts) = Ok tt /\
  forall now' since w,
    float_of_int since = Ok w ->
    snd (get_prices_since now' (fst (add_tick now m (PStr s) price ts)) (PStr s) since)
    = Raise TypeError.
Proof.
  intros Hp Hnone Hnum. split.
  - rewrite result_add_tick. simpl. now rewrite Hp.
  - intros now' since w Hw. rewrite get_prices_since_str. simpl. rewrite Hw. simpl.
    apply prices_from_not_a_number.
    rewrite history_add_tick. simpl. rewrite Hp, String.eqb_refl.
    destruct (deque_append_newest (history m (KStr s)) (stamp now ts, p))
      as (older & -> & _).
    apply Exists_app. right. constructor. simpl. unfold stamp. now rewrite Hnone.
Qed.

Lemma stored_bad_timestamp_breaks_queries_witness :
  py_float (PInt 2) = Ok (F64.dbl 2 0) /\
  is_none (PStr "soon") = false /\
  is_number (PStr "soon") = false /\
  float_of_int 60 = Ok (F64.dbl 60 0) /\
  snd (get_prices_since (F64.dbl 5 0)
         (fst (add_tick (F64.dbl 4 0) empty_market (PStr EURUSD) (PInt 2) (PStr "soon")))
         (PStr EURUSD) 60)
  = Raise TypeError.
Proof.
  split; [reflexivity |]. split; [reflexivity |]. split; [reflexivity |].
  split; [reflexivity |].
  exact (proj2 (stored_bad_timestamp_breaks_queries (F64.dbl 4 0) empty_market EURUSD
                  (PInt 2) (PStr "soon") (F64.dbl 2 0) eq_refl eq_refl eq_refl)
           (F64.dbl 5 0) 60 (F64.dbl 60 0) eq_refl).
Defined.

(** ** More on the signal *)

Lemma mean_raises (data : list float) (e : exn) :
  mean data = Raise e <-> data = [] /\ e = StatisticsError.
Proof.
  destruct data as [| d data]; simpl.
  - split; [intros H; injection H as <-; auto | intros [_ ->]; reflexivity].
  - split; [| intros [H _]; discriminate].
    destruct (F64.is_finite d && forallb F64.is_finite data);
      [destruct (exact_sum (d :: data)) |]; discriminate.
Qed.

Lemma slice_from_nil {A : Type} (i : Z) (l : list A) :
  slice_from i l = [] <-> l = [] \/ Z.of_nat (List.length l) <= i.
Proof.
  unfold slice_from. set (n := Z.of_nat (List.length l)).
  split.
  - intros H. apply (f_equal (@List.length A)) in H.
    rewrite length_skipn in H. simpl in H.
    destruct l as [| a l]; [now left | right].
    subst n. simpl List.length in *.
    destruct (Z.ltb_spec i 0); lia.
  - intros [-> | H]; [now rewrite skipn_nil |].
    apply skipn_all2. destruct (Z.ltb_spec i 0); lia.
Qed.

Lemma py_index_in_range {A : Type} (l : list A) (i : nat) :
  (0 < i <= List.length l)%nat -> exists x, py_index l (- Z.of_nat i) = Ok x.
Proof.
  intros H. rewrite py_index_from_end by exact H. unfold from_end.
  destruct (nth_error (rev l) (i - 1)) as [x |] eqn:E; [eauto |].
  apply nth_error_None in E. rewrite length_rev in E. lia.
Qed.

(** X6: [compute_signal] raises exactly when it has enough prices (at least
    three and at least both window lengths) and one window length is so
    negative that its slice is empty, [fast_len <= -len(prices)] or
    [slow_len <= -len(prices)]; the exception is then [StatisticsError],
    never an [IndexError].  With positive window lengths it always returns. *)
Theorem compute_signal_raises_iff (prices : list float) (fast_len slow_len : Z) (e : exn) :
  let n := Z.of_nat (List.length prices) in
  compute_signal prices fast_len slow_len = Raise e <->
  e = StatisticsError /\ 3 <= n /\ Z.max fast_len slow_len <= n
  /\ (fast_len <= - n \/ slow_len <= - n).
Proof.
  intros n. unfold compute_signal. fold n.
  destruct (Z.ltb_spec n (Z.max fast_len slow_len)) as [H1 | H1]; cbn [orb].
  { split; [discriminate | lia]. }
  destruct (Z.ltb_spec n 3) as [H3 | H3].
  { split; [discriminate | lia]. }
  destruct (Z.leb_spec slow_len n) as [_ | H]; [| lia].
  assert (Hne : prices <> []) by (intros ->; simpl in n; lia).
  destruct (py_index_in_range prices 1) as [last Hlast]; [lia |].
  destruct (py_index_in_range prices 3) as [third Hthird]; [lia |].
  change (- Z.of_nat 1) with (-1) in Hlast. change (- Z.of_nat 3) with (-3) in Hthird.
  rewrite Hlast, Hthird.
  destruct (mean (slice_from (- fast_len) prices)) as [fast_ma |] eqn:Ef.
  - destruct (mean (slice_from (- slow_len) prices)) as [slow_ma |] eqn:Es; cbn [bind].
    + split.
      * destruct (_ && _); [discriminate |]. destruct (_ && _); discriminate.
      * intros (_ & _ & _ & [Hf | Hs]).
        -- assert (Hm : mean (slice_from (- fast_len) prices) = Raise StatisticsError).
           { apply mean_raises. split; [| reflexivity]. apply slice_from_nil. right. fold n. lia. }
           congruence.
        -- assert (Hm : mean (slice_from (- slow_len) prices) = Raise StatisticsError).
           { apply mean_raises. split; [| reflexivity]. apply slice_from_nil. right. fold n. lia. }
           congruence.
    + apply mean_raises in Es. destruct Es as [Es ->].
      apply slice_from_nil in Es. destruct Es as [Es | Es]; [contradiction |]. fold n in Es.
      split; [intros H; injection H as <-; repeat split; lia | intros (-> & _); reflexivity].
  - cbn [bind]. apply mean_raises in Ef. destruct Ef as [Ef ->].
    apply slice_from_nil in Ef. destruct Ef as [Ef | Ef]; [contradiction |]. fold n in Ef.
    split; [intros H; injection H as <-; repeat split; lia | intros (-> & _); reflexivity].
Qed.

Lemma lastn_app_recent {A : Type} (k : nat) (old recent : list A) :
  (k <= List.length recent)%nat -> lastn k (old ++ recent) = lastn k recent.
Proof.
  intros H. unfold lastn. rewrite length_app, skipn_app.
  rewrite skipn_all2 by lia. simpl. f_equal. lia.
Qed.

Lemma from_end_app_recent {A : Type} (i : nat) (old recent : list A) :
  (0 < i <= List.length recent)%nat -> from_end i (old ++ recent) = from_end i recent.
Proof.
  intros H. unfold from_end. rewrite rev_app_distr, nth_error_app1; [reflexivity |].
  rewrite length_rev. lia.
Qed.

(** X7: with positive window lengths, prices older than the last
    [max(fast_len, slow_len, 3)] have no influence: [compute_signal] gives
    the same verdict and the same numbers with and without them. *)
Theorem compute_signal_ignores_older_prices (old recent : list float)
  (fast_len slow_len : Z) :
  0 < fast_len -> 0 < slow_len ->
  Z.max (Z.max fast_len slow_len) 3 <= Z.of_nat (List.length recent) ->
  compute_signal (old ++ recent) fast_len slow_len
  = compute_signal recent fast_len slow_len.
Proof.
  intros Hf Hs Hn. unfold compute_signal. rewrite length_app, Nat2Z.inj_add.
  set (n := Z.of_nat (List.length recent)) in *.
  set (o := Z.of_nat (List.length old)).
  assert (Ho : 0 <= o) by (subst o; lia).
  destruct (Z.ltb_spec (o + n) (Z.max fast_len slow_len)) as [H | _]; [lia |].
  destruct (Z.ltb_spec (o + n) 3) as [H | _]; [lia |].
  destruct (Z.ltb_spec n (Z.max fast_len slow_len)) as [H | _]; [lia |].
  destruct (Z.ltb_spec n 3) as [H | _]; [lia |]. cbn [orb].
  destruct (Z.leb_spec slow_len (o + n)) as [_ | H]; [| lia].
  destruct (Z.leb_spec slow_len n) as [_ | H]; [| lia].
  rewrite !slice_from_neg by lia.
  rewrite !lastn_app_recent by (subst n; lia).
  change (-1) with (- Z.of_nat 1). change (-3) with (- Z.of_nat 3).
  rewrite !py_index_from_end by (rewrite ?length_app; subst n; lia).
  rewrite !from_end_app_recent by (subst n; lia).
  reflexivity.
Qed.

Lemma compute_signal_ignores_older_prices_witness :
  0 < 2 /\ 0 < 3 /\
  Z.max (Z.max 2 3) 3 <= Z.of_nat (List.length three_neighbours) /\
  compute_signal ([F64.dbl 9 0; F64.nan] ++ three_neighbours) 2 3
  = compute_signal three_neighbours 2 3.
Proof.
  split; [lia |]. split; [lia |]. split; [simpl; lia |].
  apply (compute_signal_ignores_older_prices [F64.dbl 9 0; F64.nan] three_neighbours 2 3);
    [lia | lia | simpl; lia].
Defined.

Lemma sum_with_nan (l : list float) :
  forall acc, (F64.is_nan acc = true \/ Exists (fun x => F64.is_nan x = true) l) ->
  F64.is_nan (fold_left F64.add l acc) = true.
Proof.
  induction l as [| x l IH]; intros acc [H | H]; simpl.
  - exact H.
  - inversion H.
  - apply IH. left. destruct acc; try discriminate. reflexivity.
  - apply IH. inversion H as [? ? Hx | ? ? Hx]; subst.
    + left. destruct x; try discriminate. now destruct acc.
    + now right.
Qed.

Lemma mean_with_nan (data : list float) :
  Exists (fun x => F64.is_nan x = true) data -> mean data = Ok F64.nan.
Proof.
  intros H. destruct data as [| d data]; [inversion H |].
  unfold mean.
  assert (Hnf : forallb F64.is_finite (d :: data) = false).
  { apply not_true_is_false. intros Hall. rewrite forallb_forall in Hall.
    apply Exists_exists in H. destruct H as (x & Hin & Hx).
    specialize (Hall x Hin). now destruct x. }
  rewrite Hnf. f_equal.
  assert (Hsum : F64.is_nan (fold_left F64.add
                   (filter (fun x => negb (F64.is_finite x)) (d :: data)) F64.zero) = true).
  { apply sum_with_nan. right. apply Exists_exists in H. destruct H as (x & Hin & Hx).
    apply Exists_exists. exists x. split; [| exact Hx].
    apply filter_In. split; [exact Hin |]. now destruct x. }
  destruct (fold_left F64.add _ F64.zero); try discriminate. reflexivity.
Qed.

(** X8: a NaN among the last [fast_len] or the last [slow_len] prices makes
    the verdict HOLD, whatever the other prices are. *)
Theorem nan_in_window_holds (prices : list float) (fast_len slow_len : Z) :
  0 < fast_len -> 0 < slow_len ->
  Exists (fun x => F64.is_nan x = true) (lastn (Z.to_nat fast_len) prices)
  \/ Exists (fun x => F64.is_nan x = true) (lastn (Z.to_nat slow_len) prices) ->
  verdict (compute_signal prices fast_len slow_len) = Some HOLD.
Proof.
  intros Hf Hs Hnan. unfold compute_signal.
  set (n := Z.of_nat (List.length prices)).
  destruct ((n <? Z.max fast_len slow_len) || (n <? 3)) eqn:G; [reflexivity |].
  apply orb_false_iff in G. destruct G as [G1 G3].
  apply Z.ltb_ge in G1, G3.
  destruct (Z.leb_spec slow_len n) as [_ | H]; [| lia].
  rewrite !slice_from_neg by lia.
  destruct (py_index_in_range prices 1) as [last Hlast]; [subst n; lia |].
  destruct (py_index_in_range prices 3) as [third Hthird]; [subst n; lia |].
  change (- Z.of_nat 1) with (-1) in Hlast. change (- Z.of_nat 3) with (-3) in Hthird.
  assert (Hne : prices <> []) by (intros ->; simpl in n; lia).
  destruct Hnan as [Hn | Hn].
  - rewrite (mean_with_nan _ Hn). cbn [bind].
    destruct (mean_returns (lastn (Z.to_nat slow_len) prices)) as [slow_ma ->];
      [apply lastn_nonempty; [lia | exact Hne] |].
    cbn [bind]. rewrite Hlast, Hthird. cbn [bind].
    replace (F64.gt F64.nan slow_ma) with false by (now destruct slow_ma).
    replace (F64.lt F64.nan slow_ma) with false by reflexivity.
    reflexivity.
  - destruct (mean_returns (lastn (Z.to_nat fast_len) prices)) as [fast_ma ->];
      [apply lastn_nonempty; [lia | exact Hne] |].
    rewrite (mean_with_nan _ Hn). cbn [bind]. rewrite Hlast, Hthird. cbn [bind].
    replace (F64.gt fast_ma F64.nan) with false by reflexivity.
    replace (F64.lt fast_ma F64.nan) with false by (now destruct fast_ma).
    reflexivity.
Qed.

Lemma nan_in_window_holds_witness :
  0 < 2 /\ 0 < 3 /\
  (Exists (fun x => F64.is_nan x = true)
     (lastn (Z.to_nat 2) [F64.dbl 1 0; F64.nan; F64.dbl 3 0; F64.dbl 4 0])
   \/ Exists (fun x => F64.is_nan x = true)
        (lastn (Z.to_nat 3) [F64.dbl 1 0; F64.nan; F64.dbl 3 0; F64.dbl 4 0])) /\
  verdict (compute_signal [F64.dbl 1 0; F64.nan; F64.dbl 3 0; F64.dbl 4 0] 2 3) = Some HOLD.
Proof.
  assert (H : Exists (fun x => F64.is_nan x = true)
                (lastn (Z.to_nat 3) [F64.dbl 1 0; F64.nan; F64.dbl 3 0; F64.dbl 4 0])).
  { apply Exists_cons_hd. reflexivity. }
  split; [lia |]. split; [lia |]. split; [right; exact H |].
  apply (nan_in_window_holds [F64.dbl 1 0; F64.nan; F64.dbl 3 0; F64.dbl 4 0] 2 3);
    [lia | lia | right; exact H].
Defined.

Lemma flat_slope (x : float) :
  let slope := F64.div (F64.sub x x) (F64.dbl 2 0) in
  gt_int slope 0 = false /\ lt_int slope 0 = false.
Proof.
  destruct x as [s | s | | s m e].
  - destruct s; split; reflexivity.
  - destruct s; split; reflexivity.
  - split; reflexivity.
  - rewrite sub_diag_finite by reflexivity. split; reflexivity.
Qed.

(** X9: when the last price is the same as the third-from-last, the verdict
    is HOLD for all positive window lengths, however far apart the two
    averages are. *)
Theorem flat_momentum_holds (older : list float) (x y : float) (fast_len slow_len : Z) :
  0 < fast_len -> 0 < slow_len ->
  verdict (compute_signal (older ++ [x; y; x]) fast_len slow_len) = Some HOLD.
Proof.
  intros Hf Hs. unfold compute_signal.
  set (prices := older ++ [x; y; x]).
  set (n := Z.of_nat (List.length prices)).
  assert (Hn : 3 <= n) by (subst n prices; rewrite length_app; simpl; lia).
  destruct ((n <? Z.max fast_len slow_len) || (n <? 3)) eqn:G; [reflexivity |].
  assert (Hne : prices <> []) by (intros E; subst n; rewrite E in Hn; simpl in Hn; lia).
  rewrite !slice_from_neg by lia.
  destruct (mean_returns (lastn (Z.to_nat fast_len) prices)) as [fast_ma ->];
    [apply lastn_nonempty; [lia | exact Hne] |].
  assert (Hslow : exists slow_ma,
             (if slow_len <=? n then mean (lastn (Z.to_nat slow_len) prices) else mean prices)
             = Ok slow_ma).
  { destruct (slow_len <=? n); apply mean_returns;
      [apply lastn_nonempty; [lia | exact Hne] | exact Hne]. }
  destruct Hslow as [slow_ma ->]. cbn [bind].
  change (-1) with (- Z.of_nat 1). change (-3) with (- Z.of_nat 3).
  rewrite !py_index_from_end by (subst n; lia).
  unfold from_end, prices. rewrite rev_app_distr. cbn [rev app nth_error Nat.sub bind].
  destruct (flat_slope x) as [-> ->]. now rewrite !andb_false_r.
Qed.

Lemma flat_momentum_holds_witness :
  0 < 3 /\ 0 < 8 /\
  verdict (compute_signal
             (map (fun z => F64.dbl z 0) [1; 2; 3; 4; 5; 6; 7] ++
              [F64.dbl 9 0; F64.dbl 12 0; F64.dbl 9 0]) 3 8) = Some HOLD.
Proof.
  split; [lia |]. split; [lia |].
  apply (flat_momentum_holds (map (fun z => F64.dbl z 0) [1; 2; 3; 4; 5; 6; 7])
           (F64.dbl 9 0) (F64.dbl 12 0) 3 8); lia.
Defined.

(** ** More on the listener *)

(** X10: over any run of messages that are not JSON or are objects without
    a [tick] key, the listener leaves the store untouched and keeps
    listening. *)
Theorem listener_skips_other_messages (m : MarketData) (inbox : list frame) :
  forallb carries_no_tick inbox = true ->
  forall clock, deriv_ws_listener m clock inbox = (m, Waiting).
Proof.
  induction inbox as [| fr rest IH]; intros H clock; [reflexivity |].
  simpl in H. apply andb_true_iff in H. destruct H as [Hfr Hrest].
  destruct fr as [arrival [v |] | arrival]; simpl in Hfr; try discriminate.
  - destruct v as [| | | | | | d]; try discriminate.
    cbn [deriv_ws_listener]. unfold listener_step, listener_dispatch. simpl.
    destruct (dict_lookup "tick" d); [discriminate |]. simpl. now apply IH.
  - cbn [deriv_ws_listener]. unfold listener_step, listener_dispatch. simpl. now apply IH.
Qed.

Lemma listener_skips_other_messages_witness :
  forallb carries_no_tick
    [Frame (F64.dbl 1 0) None; Frame (F64.dbl 2 0) (Some (PDict [("msg_type", PStr "ping")]))]
  = true /\
  deriv_ws_listener (record_all three_calls empty_market) (F64.dbl 0 0)
    [Frame (F64.dbl 1 0) None; Frame (F64.dbl 2 0) (Some (PDict [("msg_type", PStr "ping")]))]
  = (record_all three_calls empty_market, Waiting).
Proof.
  split; [reflexivity |].
  apply (listener_skips_other_messages (record_all three_calls empty_market)
           [Frame (F64.dbl 1 0) None;
            Frame (F64.dbl 2 0) (Some (PDict [("msg_type", PStr "ping")]))] eq_refl).
Defined.

(** X11: a payload that parses to a bare number, boolean or null ends the
    listener with [TypeError]; the frames after it are never read and the
    store stays as it was. *)
Theorem listener_stops_on_scalar (m : MarketData) (clock arrival : float) (v : pyval)
  (rest : list frame) :
  is_scalar v = true ->
  deriv_ws_listener m clock (Frame arrival (Some v) :: rest) = (m, Stopped TypeError).
Proof. destruct v; try discriminate; reflexivity. Qed.

Lemma listener_stops_on_scalar_witness :
  is_scalar (PInt 5) = true /\
  deriv_ws_listener empty_market (F64.dbl 0 0)
    (Frame (F64.dbl 1 0) (Some (PInt 5)) :: noise_then_tick)
  = (empty_market, Stopped TypeError).
Proof.
  split; [reflexivity |].
  apply (listener_stops_on_scalar empty_market (F64.dbl 0 0) (F64.dbl 1 0) (PInt 5)
           noise_then_tick eq_refl).
Defined.

(** X12: a tick with no (or a falsy) [symbol] but a truthy [quote] is
    recorded by the listener with the quote itself as the instrument
    key. *)
Theorem listener_files_under_quote (now : float) (m : MarketData)
  (top d : list (string * pyval)) :
  dict_lookup "tick" top = Some (PDict d) ->
  truthy (field d "symbol") = false ->
  truthy (field d "quote") = true ->
  listener_step now m (Some (PDict top))
  = add_tick now m (field d "quote") (field d "quote") (epoch_or now d).
Proof.
  intros Htick Hsym Hq.
  unfold listener_step, listener_dispatch. simpl. rewrite Htick. simpl.
  rewrite resolve_price_chain, Hq.
  unfold resolve_symbol. rewrite !py_get_field. simpl. unfold py_or. rewrite Hsym, Hq.
  simpl. rewrite Hq.
  destruct (field d "quote"); try discriminate; reflexivity.
Qed.

Lemma listener_files_under_quote_witness :
  dict_lookup "tick" [("tick", PDict [("quote", PFloat (F64.dbl 3 (-1)))])]
  = Some (PDict [("quote", PFloat (F64.dbl 3 (-1)))]) /\
  truthy (field [("quote", PFloat (F64.dbl 3 (-1)))] "symbol") = false /\
  truthy (field [("quote", PFloat (F64.dbl 3 (-1)))] "quote") = true /\
  listener_step (F64.dbl 7 0) empty_market
    (Some (PDict [("tick", PDict [("quote", PFloat (F64.dbl 3 (-1)))])]))
  = ({| ticks := [(KFloat (F64.dbl 3 (-1)), [(PFloat (F64.dbl 7 0), F64.dbl 3 (-1))])] |},
     Ok tt).
Proof.
  split; [reflexivity |]. split; [reflexivity |]. split; [reflexivity |].
  exact (listener_files_under_quote (F64.dbl 7 0) empty_market
           [("tick", PDict [("quote", PFloat (F64.dbl 3 (-1)))])]
           [("quote", PFloat (F64.dbl 3 (-1)))] eq_refl eq_refl eq_refl).
Defined.

(** ** More on the snapshot fetch *)

Lemma map_lastn {A B : Type} (f : A -> B) (k : nat) (l : list A) :
  map f (lastn k l) = lastn k (map f l).
Proof. unfold lastn. now rewrite skipn_map, length_map. Qed.

Lemma map_deque_append {A B : Type} (f : A -> B) (maxlen : Z) (d : list A) (x : A) :
  map f (deque_append maxlen d x) = deque_append maxlen (map f d) (f x).
Proof.
  unfold deque_append. rewrite !length_app, length_map. simpl List.length.
  destruct (maxlen <? Z.of_nat (List.length d + 1)).
  - now rewrite <- tl_map, map_app.
  - now rewrite map_app.
Qed.

(** What one pass of the fetch loop does to the collected list and to the
    prices in the store. *)
Lemma fetch_step_forwards (now : float) (m m' : MarketData) (s : string) (msg : message)
  (collected collected' : list tick) :
  fetch_step now m (PStr s) msg collected = (m', Ok collected') ->
  (m' = m /\ collected' = collected) \/
  (exists p, map snd collected' = map snd collected ++ [p]
             /\ map snd (history m' (KStr s))
                = deque_append MAX_POINTS (map snd (history m (KStr s))) p).
Proof.
  unfold fetch_step.
  destruct (_ <- json_loads msg ;; _) as [[[[price epoch] p] |] |] eqn:E;
    [| intros H; injection H as <- <-; now left | discriminate].
  assert (Hp : py_float price = Ok p).
  { destruct (json_loads msg) as [data |]; [| discriminate]. simpl in E.
    destruct (py_in "tick" data) as [[|] |]; simpl in E; try discriminate.
    destruct (py_subscript data "tick") as [t |]; [| discriminate]. simpl in E.
    destruct (py_get t "quote" PNone) as [q |]; [| discriminate]. simpl in E.
    destruct (py_or q (py_get t "price" PNone)) as [pr |]; [| discriminate]. simpl in E.
    destruct (py_get t "epoch" (PFloat now)) as [ep |]; [| discriminate]. simpl in E.
    destruct (py_float pr) as [x |] eqn:Ex; [| discriminate]. simpl in E.
    injection E as <- <- <-. exact Ex. }
  pose proof (history_add_tick now m (PStr s) price epoch (KStr s)) as Hh.
  pose proof (result_add_tick now m (PStr s) price epoch) as Hr.
  simpl in Hh, Hr. rewrite Hp in Hh, Hr. simpl in Hr. rewrite String.eqb_refl in Hh.
  destruct (add_tick now m (PStr s) price epoch) as [m1 [u |]]; simpl in *; [| discriminate].
  intros H. injection H as <- <-. right. exists p. split.
  - now rewrite map_app.
  - now rewrite Hh, map_deque_append.
Qed.

Lemma collect_forwards (s : string) (d : Z) (start : float) (inbox : list frame) :
  forall clock m trace collected before result,
    map snd (history m (KStr s)) = lastn (Z.to_nat MAX_POINTS) (before ++ map snd collected) ->
    f_result (collect (PStr s) d start inbox clock m trace collected) = Ok result ->
    map snd (history (f_market (collect (PStr s) d start inbox clock m trace collected)) (KStr s))
    = lastn (Z.to_nat MAX_POINTS) (before ++ map snd result).
Proof.
  induction inbox as [| fr rest IH]; intros clock m trace collected before result Hinv Hres.
  - simpl in *. destruct (lt_int (F64.sub clock start) d); simpl in *; [discriminate |].
    injection Hres as <-. exact Hinv.
  - simpl in *. destruct (lt_int (F64.sub clock start) d); simpl in *;
      [| injection Hres as <-; exact Hinv].
    destruct fr as [arrival msg | arrival].
    + destruct (F64.le arrival (F64.add clock (F64.dbl d 0))); [| discriminate].
      destruct (fetch_step (later clock arrival) m (PStr s) msg collected)
        as [m' [c' |]] eqn:E; [| discriminate].
      apply (IH _ _ _ _ before result) in Hres; [exact Hres |].
      apply fetch_step_forwards in E. destruct E as [[-> ->] | (p & Hc & Hm)]; [exact Hinv |].
      rewrite Hm, Hc, Hinv, app_assoc.
      apply deque_append_lastn. unfold MAX_POINTS. lia.
    + destruct (F64.le arrival (F64.add clock (F64.dbl d 0))); discriminate.
Qed.

(** X13: when the snapshot fetch returns, the prices of the instrument's
    history are the prices that were there before followed by the prices
    of the returned ticks, in order, cut to the last [MAX_POINTS]. *)
Theorem fetch_result_is_in_store (m : MarketData) (clock : float) (inbox : list frame)
  (s : string) (d : Z) (before : list float) (collected : list tick) :
  map snd (history m (KStr s)) = lastn (Z.to_nat MAX_POINTS) before ->
  f_result (subscribe_and_fetch m clock inbox (PStr s) d) = Ok collected ->
  map snd (history (f_market (subscribe_and_fetch m clock inbox (PStr s) d)) (KStr s))
  = lastn (Z.to_nat MAX_POINTS) (before ++ map snd collected).
Proof.
  intros Hinv Hres.
  pose proof (subscribe_and_fetch_cases m clock inbox (PStr s) d) as H. cbv zeta in H.
  destruct (closed_by clock inbox); [rewrite H in Hres; discriminate |].
  destruct H as (-> & _ & _ & H).
  destruct (f_result (collect (PStr s) d clock inbox clock m [Send (Ticks (PStr s))] []))
    as [c | e] eqn:E; destruct H as [_ Hr]; rewrite Hr in Hres; [| discriminate].
  destruct (closed_by _ _); [discriminate |]. injection Hres as ->.
  apply (collect_forwards s d clock inbox clock m _ [] before collected); [| exact E].
  simpl. now rewrite app_nil_r.
Qed.

(** X14: with a duration of zero or less the snapshot fetch reads no
    message.  On a connection the provider has not closed it sends the
    subscribe and the forget request, releases the connection and returns
    the empty list, store and clock unchanged; on one the provider has
    closed, the subscribe call raises [ConnectionClosed] and the
    connection is released. *)
Theorem fetch_without_budget (m : MarketData) (clock : float) (inbox : list frame)
  (symbol : pyval) (d : Z) :
  F64.is_finite clock = true -> d <= 0 ->
  subscribe_and_fetch m clock inbox symbol d
  = if closed_by clock inbox then
      {| f_market := m; f_clock := clock; f_inbox := inbox;
         f_trace := [Send (Ticks symbol); Release];
         f_result := Raise ConnectionClosed |}
    else
      {| f_market := m; f_clock := clock; f_inbox := inbox;
         f_trace := [Send (Ticks symbol); Send (Forget symbol); Release];
         f_result := Ok [] |}.
Proof.
  intros Hfin Hd. unfold subscribe_and_fetch, send.
  destruct (closed_by clock inbox) eqn:Hopen; [reflexivity |].
  assert (Hc : forall trace collected,
             collect symbol d clock inbox clock m trace collected
             = {| f_market := m; f_clock := clock; f_inbox := inbox;
                  f_trace := trace; f_result := Ok collected |}).
  { intros trace collected.
    assert (Hlt : lt_int (F64.sub clock clock) d = false).
    { rewrite sub_diag_finite by assumption. unfold lt_int. simpl.
      destruct d; [reflexivity | lia | reflexivity]. }
    destruct inbox; simpl; now rewrite Hlt. }
  rewrite Hc. cbn [f_market f_clock f_inbox f_trace f_result]. now rewrite Hopen.
Qed.

Lemma fetch_result_is_in_store_witness :
  map snd (history empty_market (KStr EURUSD)) = lastn (Z.to_nat MAX_POINTS) [] /\
  f_result (subscribe_and_fetch empty_market (F64.dbl 1000 0) ticks_past_budget (PStr EURUSD) 5)
  = Ok [(PInt 1001, F64.dbl 3 (-1)); (PInt 1004, F64.dbl 2 0); (PInt 1006, F64.dbl 5 (-1))] /\
  map snd (history (f_market (subscribe_and_fetch empty_market (F64.dbl 1000 0)
                                ticks_past_budget (PStr EURUSD) 5)) (KStr EURUSD))
  = lastn (Z.to_nat MAX_POINTS)
      ([] ++ map snd [(PInt 1001, F64.dbl 3 (-1)); (PInt 1004, F64.dbl 2 0);
                      (PInt 1006, F64.dbl 5 (-1))]).
Proof.
  split; [reflexivity |]. split; [reflexivity |].
  apply (fetch_result_is_in_store empty_market (F64.dbl 1000 0) ticks_past_budget EURUSD 5 []);
    reflexivity.
Defined.

Lemma fetch_without_budget_witness :
  F64.is_finite (F64.dbl 1000 0) = true /\ 0 <= 0 /\
  subscribe_and_fetch empty_market (F64.dbl 1000 0) ticks_past_budget (PStr EURUSD) 0
  = {| f_market := empty_market; f_clock := F64.dbl 1000 0; f_inbox := ticks_past_budget;
       f_trace := [Send (Ticks (PStr EURUSD)); Send (Forget (PStr EURUSD)); Release];
       f_result := Ok [] |}.
Proof.
  split; [reflexivity |]. split; [lia |].
  apply (fetch_without_budget empty_market (F64.dbl 1000 0) ticks_past_budget (PStr EURUSD) 0);
    [reflexivity | lia].
Defined.

(** ** More on the command *)

Lemma compute_signal_returns (prices : list float) (fast_len slow_len : Z) :
  0 < fast_len -> 0 < slow_len ->
  exists v, compute_signal prices fast_len slow_len = Ok v.
Proof.
  intros Hf Hs. unfold compute_signal.
  set (n := Z.of_nat (List.length prices)).
  destruct ((n <? Z.max fast_len slow_len) || (n <? 3)) eqn:G; [eauto |].
  apply orb_false_iff in G. destruct G as [G1 G3]. apply Z.ltb_ge in G1, G3.
  assert (Hne : prices <> []) by (intros ->; simpl in n; lia).
  rewrite !slice_from_neg by lia.
  destruct (mean_returns (lastn (Z.to_nat fast_len) prices)) as [fast_ma ->];
    [apply lastn_nonempty; [lia | exact Hne] |].
  assert (Hslow : exists slow_ma,
             (if slow_len <=? n then mean (lastn (Z.to_nat slow_len) prices) else mean prices)
             = Ok slow_ma).
  { destruct (slow_len <=? n); apply mean_returns;
      [apply lastn_nonempty; [lia | exact Hne] | exact Hne]. }
  destruct Hslow as [slow_ma ->]. cbn [bind].
  change (-1) with (- Z.of_nat 1). change (-3) with (- Z.of_nat 3).
  rewrite !py_index_from_end by (subst n; lia).
  unfold from_end.
  destruct (nth_error (rev prices) (1 - 1)) as [p1 |] eqn:E1;
    [| apply nth_error_None in E1; rewrite length_rev in E1; subst n; lia].
  destruct (nth_error (rev prices) (3 - 1)) as [p3 |] eqn:E3;
    [| apply nth_error_None in E3; rewrite length_rev in E3; subst n; lia].
  cbn [bind]. destruct (_ && _); [eauto |]. destruct (_ && _); eauto.
Qed.

Lemma get_prices_since_raises (now : float) (m : MarketData) (s : string) (since : Z)
  (e : exn) :
  snd (get_prices_since now m (PStr s) since) = Raise e ->
  e = TypeError \/ e = OverflowError.
Proof.
  rewrite get_prices_since_str. cbn [snd].
  destruct (float_of_int since) as [w |] eqn:Ew; cbn [bind]; intros H.
  - left. eapply prices_from_raises. exact H.
  - right. unfold float_of_int in Ew. destruct (F64.dbl since 0); congruence.
Qed.

Lemma parse_duration_raises (s : string) (e : exn) :
  parse_duration s = Raise e -> e = ValueError.
Proof.
  rewrite parse_duration_cases. destruct (has_unit s); [| congruence].
  destruct (int_of_string (drop_last s)); congruence.
Qed.

Lemma last_price_returns (p : float) (l : list float) :
  exists x, py_index (p :: l) (-1) = Ok x.
Proof.
  change (-1) with (- Z.of_nat 1). rewrite py_index_from_end by (simpl; lia).
  unfold from_end.
  destruct (nth_error (rev (p :: l)) (1 - 1)) eqn:E; [eauto |].
  apply nth_error_None in E. rewrite length_rev in E. simpl in E. lia.
Qed.

Ltac read_window tf :=
  match goal with
  | |- context [get_prices_since ?n ?m (PStr ?s) tf] =>
      let H := fresh "Hr" in
      pose proof (get_prices_since_raises n m s tf) as H;
      destruct (get_prices_since n m (PStr s) tf) as [? [[| ?p ?l] | ?]];
      cbn [snd] in *;
      [ discriminate
      | let v := fresh "v" in let x := fresh "x" in
        destruct (compute_signal_returns (p :: l) (Z.max 3 (tf / 6)) (Z.max 8 (tf / 2)))
          as [[? ?] ->]; [lia | lia |];
        destruct (last_price_returns p l) as [x ->]; discriminate
      | let E := fresh in intros E; injection E as <-; now apply H ]
  end.

(** X15: [handle_signal_command] can raise in two ways only.  A duration
    that does not parse raises [ValueError] before anything is read or
    written; once both durations parse, the only exceptions are
    [TypeError] and [OverflowError], from a window query. *)
Theorem handle_signal_command_raises (w : world) (user_sym timeframe expiration : string)
  (e : exn) :
  snd (handle_signal_command w user_sym timeframe expiration) = Raise e ->
  (e = ValueError /\ fst (handle_signal_command w user_sym timeframe expiration) = w
   /\ ((exists e', parse_duration timeframe = Raise e')
       \/ (exists e', parse_duration expiration = Raise e')))
  \/ ((e = TypeError \/ e = OverflowError)
      /\ (exists tf, parse_duration timeframe = Ok tf)
      /\ (exists ex, parse_duration expiration = Ok ex)).
Proof.
  unfold handle_signal_command.
  destruct (parse_duration timeframe) as [tf |] eqn:Etf.
  2:{ simpl. intros H. injection H as <-. left.
      split; [eapply parse_duration_raises; exact Etf |]. split; [reflexivity |]. eauto. }
  destruct (parse_duration expiration) as [ex |] eqn:Eex.
  2:{ simpl. intros H. injection H as <-. left.
      split; [eapply parse_duration_raises; exact Eex |]. split; [reflexivity |]. eauto. }
  intros H. right. split; [| eauto].
  revert H. unfold signal_path.
  set (sym := format_symbol user_sym).
  pose proof (get_prices_since_raises (clock w) (market w) sym (tf * 3)) as Hr1.
  destruct (get_prices_since (clock w) (market w) (PStr sym) (tf * 3)) as [m [prices | e1]].
  2:{ simpl in *. intros H. injection H as <-. now apply Hr1. }
  destruct (Z.of_nat (List.length prices) <? Z.max 10 (tf / 1)).
  - destruct (f_result (subscribe_and_fetch m (clock w) (inbox w) (PStr sym)
                          (Z.min 10 (Z.max 5 tf)))); [| discriminate].
    destruct (get_prices_since _ _ (PStr sym) (tf * 3)) as [m2 [prices2 | e2]];
      [| discriminate].
    read_window tf.
  - read_window tf.
Qed.

Lemma handle_signal_command_raises_witness :
  snd (handle_signal_command idle_world "EURUSD_OTC" "1x" "2m") = Raise ValueError /\
  ((ValueError = ValueError
    /\ fst (handle_signal_command idle_world "EURUSD_OTC" "1x" "2m") = idle_world
    /\ ((exists e', parse_duration "1x" = Raise e')
        \/ (exists e', parse_duration "2m" = Raise e')))
   \/ ((ValueError = TypeError \/ ValueError = OverflowError)
       /\ (exists tf, parse_duration "1x" = Ok tf)
       /\ (exists ex, parse_duration "2m" = Ok ex))).
Proof.
  split; [reflexivity |].
  exact (handle_signal_command_raises idle_world "EURUSD_OTC" "1x" "2m" ValueError eq_refl).
Defined.

(** X16: when the look-back query already returns at least
    [max(10, tf_seconds)] prices, the command opens no connection: nothing
    is sent or awaited, no frame is consumed and the clock does not
    move. *)
Theorem cached_history_skips_fetch (w : world) (user_sym timeframe expiration : string)
  (tf_seconds : Z) (m : MarketData) (prices : list float) :
  get_prices_since (clock w) (market w) (PStr (format_symbol user_sym)) (tf_seconds * 3)
  = (m, Ok prices) ->
  Z.max 10 tf_seconds <= Z.of_nat (List.length prices) ->
  let w' := fst (signal_path w user_sym timeframe expiration tf_seconds) in
  trace w' = trace w /\ inbox w' = inbox w /\ clock w' = clock w.
Proof.
  intros Hget Hlen. unfold signal_path. rewrite Hget, Z.div_1_r.
  destruct (Z.ltb_spec (Z.of_nat (List.length prices)) (Z.max 10 tf_seconds)) as [H | _];
    [lia |].
  cbn [with_market market clock].
  destruct (get_prices_since (clock w) m (PStr (format_symbol user_sym)) tf_seconds)
    as [m' [[| p l] | e]]; repeat split.
Qed.

Lemma cached_history_skips_fetch_witness :
  get_prices_since (clock warm_world) (market warm_world)
    (PStr (format_symbol "EURUSD_OTC")) (4 * 3)
  = (market warm_world, Ok (map (fun i => F64.dbl (Z.of_nat i) 0) (seq 1 12))) /\
  Z.max 10 4 <= Z.of_nat (List.length (map (fun i => F64.dbl (Z.of_nat i) 0) (seq 1 12))) /\
  trace (fst (signal_path warm_world "EURUSD_OTC" "4s" "2m" 4)) = trace warm_world.
Proof.
  assert (H1 : get_prices_since (clock warm_world) (market warm_world)
                 (PStr (format_symbol "EURUSD_OTC")) (4 * 3)
               = (market warm_world, Ok (map (fun i => F64.dbl (Z.of_nat i) 0) (seq 1 12))))
    by (vm_compute; reflexivity).
  assert (H2 : Z.max 10 4
               <= Z.of_nat (List.length (map (fun i => F64.dbl (Z.of_nat i) 0) (seq 1 12))))
    by (simpl; lia).
  split; [exact H1 |]. split; [exact H2 |].
  exact (proj1 (cached_history_skips_fetch warm_world "EURUSD_OTC" "4s" "2m" 4
                  (market warm_world) _ H1 H2)).
Defined.

Lemma signal_path_echoes_expiration (w : world) (user_sym timeframe : string)
  (expiration expiration' : string) (tf_seconds : Z) :
  fst (signal_path w user_sym timeframe expiration tf_seconds)
  = fst (signal_path w user_sym timeframe expiration' tf_seconds) /\
  snd (signal_path w user_sym timeframe expiration tf_seconds)
  = (r <- snd (signal_path w user_sym timeframe expiration' tf_seconds) ;;
     Ok (echo_expiration expiration r)).
Proof.
  unfold signal_path.
  set (sym := format_symbol user_sym).
  assert (Hc : forall w0 : world,
    let run ex :=
      match get_prices_since (clock w0) (market w0) (PStr sym) tf_seconds with
      | (m, Raise e) => (with_market w0 m, @Raise reply e)
      | (m, Ok []) => (with_market w0 m, Ok (short_reply HOLD "no recent prices"))
      | (m, Ok ((_ :: _) as window_prices)) =>
          (with_market w0 m,
           '(sig, inf) <- compute_signal window_prices
                            (Z.max 3 (tf_seconds / 6)) (Z.max 8 (tf_seconds / 2)) ;;
           last_price <- py_index window_prices (-1) ;;
           Ok (full_reply sym user_sym timeframe ex sig inf last_price (clock w0)))
      end in
    fst (run expiration) = fst (run expiration') /\
    snd (run expiration) = (r <- snd (run expiration') ;; Ok (echo_expiration expiration r))).
  { intros w0. cbv zeta.
    destruct (get_prices_since (clock w0) (market w0) (PStr sym) tf_seconds)
      as [m [[| p l] | e]]; cbn [fst snd bind echo_expiration]; try (split; reflexivity).
    split; [reflexivity |].
    destruct (compute_signal (p :: l) _ _) as [[sig inf] |]; cbn [bind]; [| reflexivity].
    destruct (py_index (p :: l) (-1)); reflexivity. }
  destruct (get_prices_since (clock w) (market w) (PStr sym) (tf_seconds * 3))
    as [m [prices | e]]; [| split; reflexivity].
  destruct (Z.of_nat (List.length prices) <? Z.max 10 (tf_seconds / 1)).
  - destruct (f_result (subscribe_and_fetch m (clock w) (inbox w) (PStr sym)
                          (Z.min 10 (Z.max 5 tf_seconds)))); [| split; reflexivity].
    destruct (get_prices_since _ _ (PStr sym) (tf_seconds * 3)) as [m2 [prices2 | e2]];
      [| split; reflexivity].
    apply Hc.
  - apply Hc.
Qed.

(** X17: the expiration has no influence beyond being checked and echoed:
    two commands that differ only in their (valid) expirations leave the
    same world and give the same reply but for the expiration echoed in
    it. *)
Theorem expiration_is_only_echoed (w : world) (user_sym timeframe : string)
  (expiration expiration' : string) (a b : Z) :
  parse_duration expiration = Ok a ->
  parse_duration expiration' = Ok b ->
  fst (handle_signal_command w user_sym timeframe expiration)
  = fst (handle_signal_command w user_sym timeframe expiration') /\
  snd (handle_signal_command w user_sym timeframe expiration)
  = (r <- snd (handle_signal_command w user_sym timeframe expiration') ;;
     Ok (echo_expiration expiration r)).
Proof.
  intros Ha Hb. unfold handle_signal_command. rewrite Ha, Hb.
  destruct (parse_duration timeframe) as [tf |]; [| split; reflexivity].
  apply signal_path_echoes_expiration.
Qed.

Lemma expiration_is_only_echoed_witness :
  parse_duration "2m" = Ok 120 /\
  parse_duration "-5h" = Ok (-18000) /\
  snd (handle_signal_command warm_world "EURUSD_OTC" "4s" "2m")
  = (r <- snd (handle_signal_command warm_world "EURUSD_OTC" "4s" "-5h") ;;
     Ok (echo_expiration "2m" r)).
Proof.
  split; [reflexivity |]. split; [reflexivity |].
  exact (proj2 (expiration_is_only_echoed warm_world "EURUSD_OTC" "4s" "2m" "-5h"
                  120 (-18000) eq_refl eq_refl)).
Defined.

(** X18: a command opens at most one temporary connection; on it, it
    subscribes to the mapped symbol, waits for messages with a timeout of
    [min(10, max(5, tf_seconds))] seconds, always between 5 and 10, and
    ends with the release, preceded or not by a [forget]. *)
Theorem command_opens_one_connection (w : world) (user_sym timeframe expiration : string)
  (tf_seconds : Z) :
  let sym := PStr (format_symbol user_sym) in
  let d := Z.min 10 (Z.max 5 tf_seconds) in
  5 <= d <= 10 /\
  exists extra,
    trace (fst (signal_path w user_sym timeframe expiration tf_seconds)) = trace w ++ extra /\
    (extra = [] \/
     exists n, extra = Send (Ticks sym) :: repeat (Wait_for d) n ++ [Send (Forget sym); Release]
               \/ extra = Send (Ticks sym) :: repeat (Wait_for d) n ++ [Release]).
Proof.
  intros sym d. split; [subst d; lia |].
  unfold signal_path. fold sym. fold d.
  assert (Hf : forall m, exists n,
             f_trace (subscribe_and_fetch m (clock w) (inbox w) sym d)
             = Send (Ticks sym) :: repeat (Wait_for d) n ++ [Send (Forget sym); Release]
             \/ f_trace (subscribe_and_fetch m (clock w) (inbox w) sym d)
                = Send (Ticks sym) :: repeat (Wait_for d) n ++ [Release]).
  { intros m. apply subscribe_and_fetch_trace. }
  destruct (get_prices_since (clock w) (market w) sym (tf_seconds * 3))
    as [m [prices | e]].
  2:{ exists []. split; [simpl; now rewrite app_nil_r | now left]. }
  destruct (Z.of_nat (List.length prices) <? Z.max 10 (tf_seconds / 1)).
  - exists (f_trace (subscribe_and_fetch m (clock w) (inbox w) sym d)).
    split; [| right; apply Hf].
    destruct (f_result (subscribe_and_fetch m (clock w) (inbox w) sym d)); [| reflexivity].
    destruct (get_prices_since _ _ sym (tf_seconds * 3)) as [m2 [prices2 | e2]];
      [| reflexivity].
    destruct (get_prices_since _ _ sym tf_seconds) as [m' [[| p l] | e]]; reflexivity.
  - exists []. split; [| now left].
    rewrite app_nil_r.
    destruct (get_prices_since _ _ sym tf_seconds) as [m' [[| p l] | e]]; reflexivity.
Qed.

(** ** The console loop *)

Lemma lstrip_str_blank (l : list ascii) :
  forallb is_separator l = true -> lstrip_str l = [].
Proof.
  induction l as [| c l IH]; simpl; [reflexivity |].
  intros H. apply andb_true_iff in H. destruct H as [-> H]. now apply IH.
Qed.

Lemma words_trailing_separator (l : list ascii) (c : ascii) :
  is_separator c = true -> forall cur, words cur (l ++ [c]) = words cur l.
Proof.
  intros Hc. induction l as [| x l IH]; intros cur; simpl.
  - rewrite Hc. now destruct cur.
  - destruct (is_separator x); [destruct cur; now rewrite IH | apply IH].
Qed.

Lemma words_rstrip (r : list ascii) (cur : list ascii) :
  words cur (rev (lstrip_str r)) = words cur (rev r).
Proof.
  induction r as [| c r IH]; simpl; [reflexivity |].
  destruct (is_separator c) eqn:E; [| reflexivity].
  now rewrite IH, words_trailing_separator.
Qed.

Lemma words_lstrip (l : list ascii) : words [] (lstrip_str l) = words [] l.
Proof.
  induction l as [| c l IH]; simpl; [reflexivity |].
  destruct (is_separator c) eqn:E; [exact IH |]. simpl. now rewrite E.
Qed.

(** [strip()] before [split()] changes nothing. *)
Lemma words_strip (l : list ascii) : words [] (str_strip l) = words [] l.
Proof.
  unfold str_strip. now rewrite words_rstrip, rev_involutive, words_lstrip.
Qed.





Lemma blank_line_index_error (raw : string) :
  raw <> "" ->
  forallb is_separator (chars raw) = true ->
  read_command raw = Raise IndexError.
Proof.
  intros Hne Hblank. unfold read_command.
  destruct (String.eqb_spec raw "") as [E | _]; [contradiction |].
  rewrite words_strip.
  assert (Hw : forall l, forallb is_separator l = true -> words [] l = []).
  { induction l as [| c l IH]; simpl; [reflexivity |].
    intros H. apply andb_true_iff in H. destruct H as [-> H]. now apply IH. }
  now rewrite Hw.
Qed.







Lemma has_prefix_app (p l : list ascii) :
  has_prefix p l = true -> exists r, l = p ++ r.
Proof.
  revert l. induction p as [| a p IH]; intros l H; simpl in *.
  - now exists l.
  - destruct l as [| b l]; [discriminate |].
    apply andb_true_iff in H. destruct H as [Hab H].
    apply Ascii.eqb_eq in Hab. subst b.
    destruct (IH l H) as [r ->]. now exists r.
Qed.

Lemma option_returns (p t : string) (key : string) :
  (exists r, after_eq (chars key) = Some r) ->
  exists x, (if startswith p key then split_eq_1 p else Ok t) = Ok x.
Proof.
  intros [r0 Hkey]. unfold startswith. destruct (has_prefix (chars key) (chars p)) eqn:E; [| eauto].
  apply has_prefix_app in E. destruct E as [r E]. unfold split_eq_1. rewrite E.
  assert (H : forall a b r1, after_eq a = Some r1 -> after_eq (a ++ b) = Some (r1 ++ b)).
  { induction a as [| c a IH]; intros b r1; simpl; [discriminate |].
    destruct (Ascii.eqb c "="); [intros H; now injection H as <- | apply IH]. }
  rewrite (H _ r _ Hkey). eauto.
Qed.

Lemma signal_options_returns (opts : list string) :
  forall t e, exists r, signal_options t e opts = Ok r.
Proof.
  induction opts as [| p opts IH]; intros t e; simpl; [eauto |].
  destruct (option_returns p t "timeframe=") as [t' ->]; [now exists [] |].
  destruct (option_returns p e "expiration=") as [e' ->]; [now exists [] |].
  simpl. apply IH.
Qed.

Lemma words_nil (l : list ascii) :
  forall cur, words cur l = [] -> cur = [] /\ forallb is_separator l = true.
Proof.
  induction l as [| c l IH]; intros cur; simpl.
  - destruct cur; [auto | discriminate].
  - destruct (is_separator c).
    + destruct cur; [| discriminate]. intros H. destruct (IH [] H). auto.
    + intros H. destruct (IH _ H) as [Hc _]. discriminate.
Qed.

(** X19: reading a line of ASCII characters raises in one case only: a
    line that is not empty and holds nothing but blanks raises
    [IndexError] ([parts[0]] of an empty list), which ends the console
    loop.  Every other such line, the empty one included, leads to one of
    the branches of the loop. *)
Theorem read_command_raises_iff (raw : string) (e : exn) :
  ascii_only raw = true ->
  (read_command raw = Raise e <->
   e = IndexError /\ raw <> "" /\ forallb is_separator (chars raw) = true).
Proof.
  intros _. split.
  - unfold read_command.
    destruct (String.eqb_spec raw "") as [-> | Hne]; [discriminate |].
    rewrite words_strip.
    destruct (words [] (chars raw)) as [| first args] eqn:W.
    + intros H. injection H as <-. apply words_nil in W. tauto.
    + destruct (_ || _); [discriminate |].
      destruct (String.eqb (str_lower first) "help"); [discriminate |].
      destruct (String.eqb (str_lower first) "list"); [discriminate |].
      destruct (if String.eqb (str_lower first) "add" then args else [])
        as [| a [| b rest]]; try discriminate;
        (destruct (String.eqb (str_lower first) "signal"); [| discriminate]);
        (destruct args as [| name opts]; [discriminate |]);
        destruct (signal_options_returns opts "1m" "2m") as [[t x] ->]; discriminate.
  - intros (-> & Hne & Hblank). now apply blank_line_index_error.
Qed.

Lemma read_command_raises_iff_witness :
  ascii_only "   " = true /\ read_command "   " = Raise IndexError.
Proof.
  split; [reflexivity |].
  apply (proj2 (read_command_raises_iff "   " IndexError eq_refl)).
  split; [reflexivity |]. split; [discriminate | reflexivity].
Defined.

(** X22: with no tick of the instrument in the store and a provider that
    stays silent, the command subscribes, waits once for
    [min(10, max(5, tf_seconds))] seconds, releases the connection and
    answers HOLD, "failed to retrieve data". *)
Theorem cold_start_without_data (w : world) (user_sym timeframe expiration : string)
  (tf_seconds : Z) (lookback : float) :
  history (market w) (KStr (format_symbol user_sym)) = [] ->
  inbox w = [] ->
  F64.is_finite (clock w) = true ->
  float_of_int (tf_seconds * 3) = Ok lookback ->
  snd (signal_path w user_sym timeframe expiration tf_seconds)
  = Ok (short_reply HOLD "failed to retrieve data") /\
  trace (fst (signal_path w user_sym timeframe expiration tf_seconds))
  = trace w ++ [Send (Ticks (PStr (format_symbol user_sym)));
                Wait_for (Z.min 10 (Z.max 5 tf_seconds)); Release].
Proof.
  intros Hh Hin Hfin Hw. unfold signal_path.
  rewrite get_prices_since_str, Hw, Hh. cbn [bind prices_from List.length].
  rewrite Z.div_1_r.
  destruct (Z.ltb_spec (Z.of_nat 0) (Z.max 10 tf_seconds)) as [_ | H]; [| lia].
  rewrite Hin.
  set (d := Z.min 10 (Z.max 5 tf_seconds)).
  assert (Hf : forall m sym,
             subscribe_and_fetch m (clock w) [] sym d
             = {| f_market := m; f_clock := F64.add (clock w) (F64.dbl d 0); f_inbox := [];
                  f_trace := [Send (Ticks sym); Wait_for d; Release];
                  f_result := Raise TimeoutError |}).
  { intros m sym. unfold subscribe_and_fetch. simpl.
    rewrite sub_diag_finite by assumption.
    assert (Hlt : lt_int F64.zero d = true).
    { unfold lt_int. simpl. subst d. destruct (Z.min 10 (Z.max 5 tf_seconds)) eqn:E;
        [lia | reflexivity | lia]. }
    now rewrite Hlt. }
  rewrite Hf. split; reflexivity.
Qed.

Lemma cold_start_without_data_witness :
  history (market idle_world) (KStr (format_symbol "EURUSD_OTC")) = [] /\
  inbox idle_world = [] /\
  F64.is_finite (clock idle_world) = true /\
  float_of_int (60 * 3) = Ok (F64.dbl 180 0) /\
  snd (signal_path idle_world "EURUSD_OTC" "1m" "2m" 60)
  = Ok (short_reply HOLD "failed to retrieve data").
Proof.
  split; [reflexivity |]. split; [reflexivity |]. split; [reflexivity |].
  split; [reflexivity |].
  exact (proj1 (cold_start_without_data idle_world "EURUSD_OTC" "1m" "2m" 60 (F64.dbl 180 0)
                  eq_refl eq_refl eq_refl eq_refl)).
Defined.
